(** * Anomaly Detector: the scoring engine of [app.py] and the report
      helpers of [dashboard.py]

    The development embeds
    - [update_analysis] of [app.py] (z-score scoring, labelling, choice of
      the scatter axes, the table of anomalous rows), and
    - [classify_risk] and [generate_smart_report] of [dashboard.py].

    Python floats are IEEE binary64 numbers and are modelled by Rocq's
    primitive floats, so every function below runs on concrete data as the
    Python code does.  The pandas, NumPy and SciPy calls the code makes are
    written out here with the behaviour of these libraries: a frame is the
    frame [pd.DataFrame(data)] builds from the stored records,
    [scipy.stats.zscore] is the function of SciPy 1.14 and later, which
    returns a NumPy array whatever it is given, sums are added in the
    order NumPy adds them, and plotly express refuses a column name the
    frame does not have. *)

From Stdlib Require Import ZArith List String Ascii Bool Floats Lia
  DecimalString.
Import ListNotations.

#[local] Set Warnings "-inexact-float".
#[local] Open Scope float_scope.

(** Python's [x > y] on floats. *)
#[local] Notation "x >? y" := (PrimFloat.ltb y x)
  (at level 70, no associativity) : float_scope.

(* ================================================================== *)
(** * Numbers *)
(* ================================================================== *)

(** Conversion of an integer to the nearest binary64 number (ties to even),
    as NumPy converts an [int64] array to [float64]. *)
Definition of_Z (z : Z) : float :=
  SF2Prim (binary_normalize prec emax z 0 false).

Definition of_nat (n : nat) : float := of_Z (Z.of_nat n).

(** Python's [a / b] for two integers: the quotient of the integers
    themselves, rounded once to the nearest binary64 number (ties to
    even), whatever their size.  The code divides by a number that is not
    0; where the quotient lies beyond the largest binary64 number Python
    raises [OverflowError], and the value here is infinite. *)
Definition Z2SF (z : Z) : spec_float :=
  match z with
  | Z0 => S754_zero false
  | Zpos p => S754_finite false p 0
  | Zneg p => S754_finite true p 0
  end.

Definition int_truediv (a b : Z) : float :=
  SF2Prim (SFdiv prec emax (Z2SF a) (Z2SF b)).

(** [np.finfo(np.float64).eps], 2^-52. *)
Definition eps : float := 0x1p-52.

(** [arr.sum()]: NumPy's reduction of [np.add] over a contiguous array of
    doubles ([DOUBLE_pairwise_sum]).  Fewer than 8 values are added one
    after the other.  Up to 128 values are added on eight running sums,
    which take the values in turn, row after row of eight; the eight sums
    are then added in pairs and the values after the last full row one by
    one.  A longer array is cut in two, the first part a multiple of 8
    long, and the sums of the two parts are added. *)
Fixpoint zip_add (r a : list float) : list float :=
  match r, a with
  | x :: r', y :: a' => (x + y) :: zip_add r' a'
  | _, _ => []
  end.

(** [r[j] += a[i + j]] for [rows] more rows of eight. *)
Fixpoint add_rows (rows : nat) (r a : list float) : list float * list float :=
  match rows with
  | O => (r, a)
  | S rows' => add_rows rows' (zip_add r (firstn 8 a)) (skipn 8 a)
  end.

(** The branch for 8 to 128 values. *)
Definition unrolled_sum (a : list float) : float :=
  let '(r, rest) :=
    add_rows (List.length a / 8 - 1) (firstn 8 a) (skipn 8 a) in
  match r with
  | [r0; r1; r2; r3; r4; r5; r6; r7] =>
      fold_left add rest (((r0 + r1) + (r2 + r3)) + ((r4 + r5) + (r6 + r7)))
  | _ => 0
  end.

(** The recursion halves the array; [fuel] bounds its depth, and the
    length of the array is always enough. *)
Fixpoint pairwise_sum (fuel : nat) (a : list float) : float :=
  let n := List.length a in
  if Nat.ltb n 8 then fold_left add a neg_zero
  else if Nat.leb n 128 then unrolled_sum a
  else
    match fuel with
    | O => unrolled_sum a
    | S fuel' =>
        let n2 := (n / 2 - (n / 2) mod 8)%nat in
        pairwise_sum fuel' (firstn n2 a) + pairwise_sum fuel' (skipn n2 a)
    end.

(** The reduction starts from the identity 0 of [np.add]. *)
Definition fsum (a : list float) : float :=
  0 + pairwise_sum (List.length a) a.

(** [arr.mean()]. *)
Definition mean (a : list float) : float :=
  fsum a / of_nat (List.length a).

(** The variance with [ddof = 0]: the mean of the squared deviations, the
    sum of squares being divided by N. *)
Definition var (a : list float) : float :=
  let mn := mean a in
  mean (map (fun v => (v - mn) * (v - mn)) a).

(** The population standard deviation. *)
Definition std (a : list float) : float := sqrt (var a).

(* ================================================================== *)
(** * [scipy.stats.zscore]  (default [axis=0], [ddof=0]) *)
(* ================================================================== *)

(** SciPy tells a sample without usable spread from the others by comparing
    the standard deviation with the rounding noise of the mean
    ([std <= abs(eps * mn)]). *)
Definition degenerate (a : list float) : bool :=
  std a <=? abs (eps * mean a).

(** [zscore a]: every value has the mean subtracted and is divided by the
    population standard deviation; the result is a bare array of the same
    length, in the order of [a].  The scores of a degenerate sample are
    all set to NaN. *)
Definition zscore (a : list float) : list float :=
  let mn := mean a in
  let sd := std a in
  let z := map (fun v => (v - mn) / sd) a in
  if degenerate a then map (fun _ => nan) z else z.

(* ================================================================== *)
(** * The labeler of [update_analysis]  (app.py, lines 426-428) *)
(* ================================================================== *)

(** [lambda x: 'Abnormal' if abs(x) > z_score_threshold else 'Normal'] *)
Definition anomaly_label (z_score_threshold x : float) : string :=
  if abs x >? z_score_threshold then "Abnormal"%string else "Normal"%string.

(* ================================================================== *)
(** * Exceptions *)
(* ================================================================== *)

(** The exceptions the modelled code can meet.  pandas refuses to store an
    array in a frame whose number of rows differs from the array's length
    ("Length of values (n) does not match length of index (m)"), and plotly
    express refuses a column name that the frame does not have ("Value of
    'x' is not the name of a column in 'data_frame'"). *)
Inductive exn : Type :=
| ValueError_length (values index : nat)
| ValueError_column.

Inductive result (A : Type) : Type :=
| Ok (a : A)
| Raise (e : exn).

Arguments Ok {A} a.
Arguments Raise {A} e.

Definition bind {A B : Type} (r : result A) (k : A -> result B) : result B :=
  match r with
  | Ok a => k a
  | Raise e => Raise e
  end.

Notation "x <- r ;; k" := (bind r (fun x => k))
  (at level 61, r at next level, right associativity).

(* ================================================================== *)
(** * Data model: pandas frames *)
(* ================================================================== *)

Inductive dtype : Type := int64 | float64 | bool_ | object_.

Definition dtype_eqb (a b : dtype) : bool :=
  match a, b with
  | int64, int64 | float64, float64 | bool_, bool_ | object_, object_ => true
  | _, _ => false
  end.

(** A column.  A [float64] column marks a missing entry by NaN; an [int64]
    column has none. *)
Inductive Series : Type :=
| Int64 (vs : list Z)
| Float64 (vs : list float)
| Bool (vs : list bool)
| Object (vs : list string).

Definition dtype_of (s : Series) : dtype :=
  match s with
  | Int64 _ => int64
  | Float64 _ => float64
  | Bool _ => bool_
  | Object _ => object_
  end.

Definition series_length (s : Series) : nat :=
  match s with
  | Int64 vs => List.length vs
  | Float64 vs => List.length vs
  | Bool vs => List.length vs
  | Object vs => List.length vs
  end.

(** A frame: the row labels and the named columns, in column order.  The
    frame [pd.DataFrame(data)] built from the stored records has the row
    labels [0, 1, ..., n-1]. *)
Record DataFrame : Type := mkDataFrame {
  df_index : list nat;
  df_columns : list (string * Series)
}.

(** Every column of a frame has one entry per row. *)
Definition well_formed (df : DataFrame) : Prop :=
  Forall (fun c => series_length (snd c) = List.length (df_index df))
         (df_columns df).

(** [name in df.columns] and [df[name]]. *)
Fixpoint lookup (cols : list (string * Series)) (name : string)
  : option Series :=
  match cols with
  | [] => None
  | (k, s) :: rest => if String.eqb k name then Some s else lookup rest name
  end.

Definition get_column (df : DataFrame) (name : string) : option Series :=
  lookup (df_columns df) name.

(** [df[name] = s] for a column of the frame's own length: an existing
    column is replaced where it stands, a new one is appended. *)
Fixpoint store (cols : list (string * Series)) (name : string) (s : Series)
  : list (string * Series) :=
  match cols with
  | [] => [(name, s)]
  | (k, old) :: rest =>
      if String.eqb k name then (k, s) :: rest
      else (k, old) :: store rest name s
  end.

Definition set_column (df : DataFrame) (name : string) (s : Series)
  : DataFrame :=
  mkDataFrame (df_index df) (store (df_columns df) name s).

(** [df[name] = values] for a bare array: pandas first checks the length. *)
Definition set_array (df : DataFrame) (name : string) (values : list float)
  : result DataFrame :=
  if Nat.eqb (List.length values) (List.length (df_index df))
  then Ok (set_column df name (Float64 values))
  else Raise (ValueError_length (List.length values)
                                (List.length (df_index df))).

(** [s.dropna()]: the missing entries are left out. *)
Definition dropna (s : Series) : Series :=
  match s with
  | Float64 vs => Float64 (filter (fun v => negb (is_nan v)) vs)
  | _ => s
  end.

(** The values of a column as binary64 numbers, as SciPy promotes its
    argument before computing. *)
Definition to_floats (s : Series) : list float :=
  match s with
  | Int64 vs => map of_Z vs
  | Float64 vs => vs
  | Bool vs => map (fun b : bool => if b then 1 else 0) vs
  | Object _ => []
  end.

(** Selection of the rows whose mask entry is [true]. *)
Fixpoint select {A : Type} (mask : list bool) (l : list A) : list A :=
  match mask, l with
  | b :: mask', x :: l' => if b then x :: select mask' l' else select mask' l'
  | _, _ => []
  end.

Definition select_series (mask : list bool) (s : Series) : Series :=
  match s with
  | Int64 vs => Int64 (select mask vs)
  | Float64 vs => Float64 (select mask vs)
  | Bool vs => Bool (select mask vs)
  | Object vs => Object (select mask vs)
  end.

(** [df[mask]]: the selected rows keep their labels. *)
Definition select_rows (mask : list bool) (df : DataFrame) : DataFrame :=
  mkDataFrame (select mask (df_index df))
              (map (fun c => (fst c, select_series mask (snd c)))
                   (df_columns df)).

(** [s == 'Abnormal'] on a column of strings; on any other column no entry
    is equal to a string. *)
Definition series_eq_str (s : Series) (v : string) : list bool :=
  match s with
  | Object vs => map (fun x => String.eqb x v) vs
  | _ => repeat false (series_length s)
  end.

(** One cell of a record. *)
Inductive Cell : Type :=
| CInt (z : Z)
| CFloat (f : float)
| CBool (b : bool)
| CStr (s : string).

Definition cells (s : Series) : list Cell :=
  match s with
  | Int64 vs => map CInt vs
  | Float64 vs => map CFloat vs
  | Bool vs => map CBool vs
  | Object vs => map CStr vs
  end.

(** [df.to_dict('records')]: one record per row, a record listing the
    cell of every column under the column's name. *)
Fixpoint row_at (cols : list (string * Series)) (i : nat)
  : list (string * Cell) :=
  match cols with
  | [] => []
  | (k, s) :: rest =>
      match nth_error (cells s) i with
      | Some c => (k, c) :: row_at rest i
      | None => row_at rest i
      end
  end.

Definition to_records (df : DataFrame) : list (list (string * Cell)) :=
  map (row_at (df_columns df)) (seq 0 (List.length (df_index df))).

(** [df.to_json(orient='split')]: the column names, the row labels and the
    rows of cells; the JSON text is this triple printed. *)
Record SplitJson : Type := mkSplitJson {
  js_columns : list string;
  js_index : list nat;
  js_data : list (list Cell)
}.

Definition to_json_split (df : DataFrame) : SplitJson :=
  mkSplitJson (map fst (df_columns df))
              (df_index df)
              (map (fun r => map snd r) (to_records df)).

(** [round(x, 2)] of NumPy: [rint (x * 100) / 100].  For a magnitude below
    2^52, adding and subtracting 2^52 rounds to the nearest integer, ties
    to even; larger magnitudes are integers already. *)
Definition rint (x : float) : float :=
  if 0x1p52 <=? abs x then x
  else
    let r := (abs x + 0x1p52) - 0x1p52 in
    if get_sign x then - r else r.

Definition round2 (x : float) : float := rint (x * 100) / 100.

Definition round_series (s : Series) : Series :=
  match s with
  | Float64 vs => Float64 (map round2 vs)
  | _ => s
  end.

(** [str(n)] for a length. *)
Definition str (n : nat) : string :=
  NilZero.string_of_uint (Nat.to_uint n).

(* ================================================================== *)
(** * [update_analysis]  (app.py, lines 414-508) *)
(* ================================================================== *)

(** A plotly figure, recorded as the frame and the column names it is built
    from; titles, colours and layout are presentation and are left out. *)
Inductive Figure : Type :=
| EmptyFig (text : string)
| ScatterFig (frame : DataFrame) (x y color : string) (hover_data : list string)
| HistogramFig (frame : DataFrame) (x color : string).

(** The six outputs of the callback, in the order of its [Output] list. *)
Record Outputs : Type := mkOutputs {
  scatter_figure : Figure;
  histogram_plots : list Figure;
  table_data : list (list (string * Cell));
  table_columns : list string;
  total_anomalies_kpi : string;
  anomalous_data_store : option SplitJson
}.

(** [_empty_fig()] with its default label (dashboard.py, line 35). *)
Definition _empty_fig : Figure :=
  EmptyFig "Upload a CSV file to get started".

(** [return placeholder, [], [], [], "0", None] *)
Definition no_analysis : Outputs :=
  mkOutputs _empty_fig [] [] [] "0" None.

Definition has_column (df : DataFrame) (name : string) : bool :=
  match get_column df name with
  | Some _ => true
  | None => false
  end.

(** [df[name]] for a column the frame has. *)
Definition column (df : DataFrame) (name : string) : Series :=
  match get_column df name with
  | Some s => s
  | None => Object []
  end.

(** [s.apply(f)] for a function from numbers to strings. *)
Definition series_apply (f : float -> string) (s : Series) : Series :=
  Object (map f (to_floats s)).

(** [df.index] stored as a column. *)
Definition index_series (df : DataFrame) : Series :=
  Int64 (map Z.of_nat (df_index df)).

(** Lines 430-435: the two axes of the scatter plot, and the frame with the
    [index] column when the plot falls back on the row position. *)
Definition scatter_axes (df : DataFrame) (numeric_cols : list string)
    (selected_feature : string) : DataFrame * string * string :=
  let scatter_x := selected_feature in
  let other_features :=
    filter (fun col => negb (String.eqb col selected_feature)) numeric_cols in
  let scatter_y :=
    match other_features with
    | col :: _ => col
    | [] => selected_feature
    end in
  if String.eqb scatter_x scatter_y
  then (set_column df "index" (index_series df), scatter_x, "index"%string)
  else (df, scatter_x, scatter_y).

(** Lines 491-493: the rows labelled Abnormal, with their row label and
    the score rounded to two decimals. *)
Definition anomalous_rows (df : DataFrame) : DataFrame :=
  let anomalous_points :=
    select_rows (series_eq_str (column df "anomaly_label") "Abnormal") df in
  let anomalous_points :=
    set_column anomalous_points "index" (index_series anomalous_points) in
  set_column anomalous_points "z_score"
             (round_series (column anomalous_points "z_score")).

(** Lines 425-428: the scores are stored in the column [z_score] and
    their labels in the column [anomaly_label]. *)
Definition score_rows (df : DataFrame) (selected_feature : string)
    (z_score_threshold : float) : result DataFrame :=
  df <- set_array df "z_score"
          (zscore (to_floats (dropna (column df selected_feature)))) ;;
  Ok (set_column df "anomaly_label"
        (series_apply (anomaly_label z_score_threshold)
                      (column df "z_score"))).

(** [px.scatter] and [px.histogram] look up every column they are given
    by name and raise [ValueError] for a name the frame does not have. *)
Definition px_scatter (df : DataFrame) (x y color : string)
    (hover_data : list string) : result Figure :=
  if forallb (has_column df) ([x; y] ++ hover_data ++ [color])
  then Ok (ScatterFig df x y color hover_data)
  else Raise ValueError_column.

Definition px_histogram (df : DataFrame) (x color : string)
  : result Figure :=
  if forallb (has_column df) [x; color]
  then Ok (HistogramFig df x color)
  else Raise ValueError_column.

(** Lines 457-489: one histogram per entry of [numeric_cols]. *)
Fixpoint histograms (df : DataFrame) (numeric_cols : list string)
  : result (list Figure) :=
  match numeric_cols with
  | [] => Ok []
  | col :: rest =>
      hist_fig <- px_histogram df col "anomaly_label" ;;
      histogram_plots <- histograms df rest ;;
      Ok (hist_fig :: histogram_plots)
  end.

Definition update_analysis (data : option DataFrame)
    (numeric_cols : option (list string)) (selected_feature : option string)
    (z_score_threshold : float) : result Outputs :=
  match data, selected_feature, numeric_cols with
  | Some df, Some selected_feature, Some numeric_cols =>
      if negb (has_column df selected_feature)
         || negb (existsb (dtype_eqb (dtype_of (column df selected_feature)))
                          [int64; float64])
      then Ok no_analysis
      else
        df <- score_rows df selected_feature z_score_threshold ;;
        let '(df, scatter_x, scatter_y) :=
          scatter_axes df numeric_cols selected_feature in
        scatter_fig <-
          px_scatter df scatter_x scatter_y "anomaly_label"
                     [scatter_x; scatter_y; "z_score"%string] ;;
        histogram_plots <- histograms df numeric_cols ;;
        let anomalous_points := anomalous_rows df in
        let table_cols :=
          ["index"%string] ++ numeric_cols ++ ["z_score"%string] in
        Ok (mkOutputs scatter_fig
                      histogram_plots
                      (to_records anomalous_points)
                      table_cols
                      (str (List.length (df_index anomalous_points)))
                      (Some (to_json_split anomalous_points)))
  | _, _, _ => Ok no_analysis
  end.

(** What the spec calls the engine's output: the score and the label of
    every row, the number of anomalies, and the stored anomalous rows. *)
Record Engine : Type := mkEngine {
  scores : Series;
  labels : Series;
  anomaly_count : string;
  anomalous_table : list (list (string * Cell));
  anomalous_store : option SplitJson
}.

Definition engine_of (o : Outputs) : Engine :=
  let frame :=
    match scatter_figure o with
    | ScatterFig frame _ _ _ _ => frame
    | _ => mkDataFrame [] []
    end in
  mkEngine (column frame "z_score") (column frame "anomaly_label")
           (total_anomalies_kpi o) (table_data o) (anomalous_data_store o).

Definition engine (r : result Outputs) : result Engine :=
  o <- r ;; Ok (engine_of o).

(* ================================================================== *)
(** * [classify_risk]  (dashboard.py, lines 67-75) *)
(* ================================================================== *)

(** [count / total_anomalies] divides two Python integers. *)
Definition classify_risk (count total_anomalies : Z) : string :=
  if Z.eqb total_anomalies 0 then "Low"%string
  else
    let ratio := int_truediv count total_anomalies in
    if ratio >? 0.5 then "High"%string
    else if ratio >? 0.2 then "Medium"%string
    else "Low"%string.

(* ================================================================== *)
(** * [generate_smart_report]  (dashboard.py, lines 622-725) *)
(* ================================================================== *)

(** A row of the summary table.  [probability] is the percentage as a
    number; the table shows it with one decimal and a percent sign. *)
Record ReportRow : Type := mkReportRow {
  attack_type : string;
  count : Z;
  probability : float;
  risk_level : string
}.

Record TrendRow : Type := mkTrendRow {
  trend_timestamp : string;
  trend_attack_type : string;
  trend_count : Z
}.

(** The outputs of the callback that carry data: the stored report and
    trend, the card of the highest attack, the summary table and the
    report's time stamp.  The badge and the bar chart are presentation. *)
Record Report : Type := mkReport {
  smart_report_data : option (list ReportRow);
  attack_trend_data : option (list TrendRow);
  highest_attack_name : string;
  highest_attack_count : Z;
  highest_attack_prob : float;
  attack_summary_table : list ReportRow;
  report_timestamp : string
}.

Definition attack_types : list string :=
  ["DDoS"; "DoS"; "Port Scan"; "Brute Force"; "Botnet"; "Web Attacks"]%string.

(** Lines 661-670: the rows of the report, one per entry of
    [attack_counts] with a positive count, in the order of the entries. *)
Fixpoint report_rows (attack_counts : list (string * Z)) (total_anomalies : Z)
  : list ReportRow :=
  match attack_counts with
  | [] => []
  | (attack, count) :: rest =>
      if (0 <? count)%Z
      then
        let probability :=
          if (0 <? total_anomalies)%Z
          then int_truediv count total_anomalies * 100
          else 0 in
        let risk_level := classify_risk count total_anomalies in
        mkReportRow attack count probability risk_level
          :: report_rows rest total_anomalies
      else report_rows rest total_anomalies
  end.

Definition trend_rows (current_time : string) (rows : list ReportRow)
  : list TrendRow :=
  map (fun r => mkTrendRow current_time (attack_type r) (count r)) rows.

(** [max(rows, key=lambda x: x['count'])]: the first row of largest count. *)
Fixpoint max_by_count (best : ReportRow) (rows : list ReportRow) : ReportRow :=
  match rows with
  | [] => best
  | r :: rest => max_by_count (if (count best <? count r)%Z then r else best) rest
  end.

Section SmartReport.

(** NumPy's global generator: its state, [np.random.seed] and
    [np.random.poisson], which returns a draw and advances the state. *)
Variable rng : Type.
Variable seed : Z -> rng.
Variable poisson : float -> rng -> Z * rng.

(** Lines 650-659: the simulated count of every attack type. *)
Fixpoint draw_counts (attacks : list string)
    (total_attacks total_anomalies : Z) (g : rng)
  : list (string * Z) * rng :=
  match attacks with
  | [] => ([], g)
  | attack :: rest =>
      let '(base_count, g) :=
        poisson (int_truediv total_attacks
                             (Z.of_nat (List.length attack_types))) g in
      let '(count, g) :=
        if String.eqb attack "DDoS"
        then
          let '(extra, g) := poisson (of_Z total_anomalies * 0.1) g in
          (Z.max 0 (base_count + extra), g)
        else (Z.max 0 base_count, g) in
      let '(attack_counts, g) :=
        draw_counts rest total_attacks total_anomalies g in
      ((attack, count) :: attack_counts, g)
  end.

(** [anomalous_json] is the stored table of anomalous rows, absent when
    nothing has been analysed; [clock_iso] and [clock_text] are the two
    readings of the clock, and [g] the generator's state on entry. *)
Definition generate_smart_report (anomalous_json : option SplitJson)
    (clock_iso clock_text : string) (g : rng) : Report * rng :=
  match anomalous_json with
  | None =>
      (mkReport None None "—" 0 0 [] "No report generated", g)
  | Some df_anomalies =>
      let total_anomalies :=
        Z.max (Z.of_nat (List.length (js_index df_anomalies))) 0 in
      let g := seed (42 + total_anomalies)%Z in
      let total_attacks := Z.max 1 (total_anomalies / 3) in
      let '(attack_counts, g) :=
        draw_counts attack_types total_attacks total_anomalies g in
      let report_data := report_rows attack_counts total_anomalies in
      let trend_data := trend_rows clock_iso report_data in
      match report_data with
      | [] => (mkReport None None "No Threats" 0 0 [] clock_text, g)
      | first :: others =>
          let highest := max_by_count first others in
          (mkReport (Some report_data) (Some trend_data)
                    (attack_type highest) (count highest)
                    (probability highest)
                    report_data clock_text, g)
      end
  end.

End SmartReport.

(* ================================================================== *)
(** * The ordering the spec asks of the summary table *)
(* ================================================================== *)

(** [r1] may stand before [r2]: a larger count first, and the smaller name
    first among equal counts. *)
Definition before (r1 r2 : ReportRow) : bool :=
  (count r2 <? count r1)%Z
  || ((count r1 =? count r2)%Z && String.leb (attack_type r1) (attack_type r2)).

Fixpoint sorted_by_count (rows : list ReportRow) : bool :=
  match rows with
  | [] => true
  | r1 :: rest =>
      match rest with
      | [] => true
      | r2 :: _ => before r1 r2 && sorted_by_count rest
      end
  end.

(* ================================================================== *)
(** * Reading results, and the scenarios of the spec *)
(* ================================================================== *)

(** The checks of [px_scatter] and of the loop of histograms, taken
    together. *)
Definition plots_accepted (frame : DataFrame) (x y : string)
    (numeric_cols : list string) : bool :=
  forallb (has_column frame)
          ([x; y] ++ [x; y; "z_score"%string] ++ ["anomaly_label"%string])
  && forallb (fun col => forallb (has_column frame)
                                 [col; "anomaly_label"%string])
             numeric_cols.


(** The two axes of the scatter plot a call hands back, if it plots. *)
Definition axes_of (r : result Outputs) : option (string * string) :=
  match r with
  | Ok o =>
      match scatter_figure o with
      | ScatterFig _ x y _ _ => Some (x, y)
      | _ => None
      end
  | Raise _ => None
  end.

(** [x] and [y] differ by at most [tol]. *)
Definition close (tol x y : float) : bool := abs (x - y) <=? tol.

Fixpoint all_close (tol : float) (xs ys : list float) : bool :=
  match xs, ys with
  | [], [] => true
  | x :: xs', y :: ys' => close tol x y && all_close tol xs' ys'
  | _, _ => false
  end.

(** A frame of one integer column [x]. *)
Definition frame_of (vs : list Z) : DataFrame :=
  mkDataFrame (seq 0 (List.length vs)) [("x"%string, Int64 vs)].

(** The spec's scenarios: [1, 2, 3, 4, 100] and [5, 5, 5, 5]. *)
Definition scenario : DataFrame := frame_of [1; 2; 3; 4; 100]%Z.
Definition constant_scenario : DataFrame := frame_of [5; 5; 5; 5]%Z.

(** Three rows whose middle value is the mean. *)
Definition centred : DataFrame := frame_of [1; 2; 3]%Z.

(** A column with a missing entry beside two numbers. *)
Definition with_gap : DataFrame :=
  mkDataFrame [0; 1; 2]%nat [("x"%string, Float64 [1; nan; 3])].

(** A data set whose only numeric column is called [index]. *)
Definition indexed : DataFrame :=
  mkDataFrame [0; 1; 2]%nat
    [("index"%string, Int64 [10; 20; 300]%Z);
     ("name"%string, Object ["a"; "b"; "c"]%string)].

(** Counts of the six attack types, as the first loop of the report may
    draw them, and the three categories of the spec's example in an order
    of computation other than the alphabetical one. *)
Definition drawn_counts : list (string * Z) :=
  [("DDoS", 4); ("DoS", 1); ("Port Scan", 3); ("Brute Force", 0);
   ("Botnet", 2); ("Web Attacks", 3)]%string%Z.

Definition abc_counts : list (string * Z) :=
  [("C", 1); ("A", 3); ("B", 3)]%string%Z.

(** A generator that replays a fixed list of draws, whatever the seed. *)
Definition replay_seed (draws : list Z) (s : Z) : list Z := draws.

Definition replay_poisson (lam : float) (g : list Z) : Z * list Z :=
  (hd 0%Z g, tl g).

(** The tiers read off the exact ratio: above one half, above one fifth. *)
Definition exact_risk (count total_anomalies : Z) : string :=
  if (total_anomalies =? 0)%Z then "Low"%string
  else if (total_anomalies <? 2 * count)%Z then "High"%string
  else if (total_anomalies <? 5 * count)%Z then "Medium"%string
  else "Low"%string.

Definition risk_agrees (t c : nat) : bool :=
  String.eqb (classify_risk (Z.of_nat c) (Z.of_nat t))
             (exact_risk (Z.of_nat c) (Z.of_nat t)).

(* ================================================================== *)
(** * Python dictionaries and truth values *)
(* ================================================================== *)

(** A dictionary with string keys: its entries in insertion order, no key
    twice. *)
Definition dict (V : Type) : Type := list (string * V).

(** [d.get(k)], and [d[k]] for a key the dictionary has. *)
Fixpoint dict_get {V : Type} (d : dict V) (k : string) : option V :=
  match d with
  | [] => None
  | (k', v) :: rest => if String.eqb k' k then Some v else dict_get rest k
  end.

(** [k in d]. *)
Definition dict_in {V : Type} (d : dict V) (k : string) : bool :=
  match dict_get d k with
  | Some _ => true
  | None => false
  end.

(** [d[k] = v]: the value of an existing key is replaced, a new key is
    added at the end. *)
Fixpoint dict_set {V : Type} (d : dict V) (k : string) (v : V) : dict V :=
  match d with
  | [] => [(k, v)]
  | (k', v') :: rest =>
      if String.eqb k' k then (k', v) :: rest
      else (k', v') :: dict_set rest k v
  end.

(** [not s] for the value of a text input, which is a string or [None]. *)
Definition blank (s : option string) : bool :=
  match s with
  | None => true
  | Some s => String.eqb s ""
  end.

(* ================================================================== *)
(** * Accounts  (login.py) *)
(* ================================================================== *)

Record Account : Type := mkAccount {
  acct_password : string;
  acct_email : string
}.

(** The table of users the module starts with (login.py, lines 8-11). *)
Definition USERS_DB : dict Account :=
  [("admin"%string, mkAccount "admin123" "admin@gmail.com");
   ("user"%string, mkAccount "user123" "user@gmail.com")].

(** The value of the [login-state] store: a dictionary with the one key
    [logged_in]. *)
Definition login_state_of (logged_in : bool) : dict bool :=
  [("logged_in"%string, logged_in)].

(** [register_user] (login.py, lines 125-133).  The table of users is a
    module-level dictionary the callback updates; the model takes it as an
    argument and returns it beside the message. *)
Definition register_user (db : dict Account) (n : option nat)
    (username email password : option string) : string * dict Account :=
  if blank username || blank email || blank password
  then ("❌ Please fill all fields"%string, db)
  else
    match username, email, password with
    | Some username, Some email, Some password =>
        if dict_in db username
        then ("❌ Username already exists"%string, db)
        else ("✅ Registered! Go back and login."%string,
              dict_set db username (mkAccount password email))
    | _, _, _ => ("❌ Please fill all fields"%string, db)
    end.

(** [login_user] (login.py, lines 143-150): the new login state and the
    message. *)
Definition login_user (db : dict Account) (n : option nat)
    (username password : option string) : dict bool * string :=
  if blank username || blank password
  then (login_state_of false, " Enter username & password"%string)
  else
    match username, password with
    | Some username, Some password =>
        if dict_in db username
           && match dict_get db username with
              | Some account => String.eqb (acct_password account) password
              | None => false
              end
        then (login_state_of true, "✅ Login successful!"%string)
        else (login_state_of false, "❌ Invalid credentials"%string)
    | _, _ => (login_state_of false, " Enter username & password"%string)
    end.

(* ================================================================== *)
(** * Page routing  (app.py, lines 316-336) *)
(* ================================================================== *)

(** The five layouts a page is made of. *)
Inductive Layout : Type :=
| login_layout
| register_layout
| insights_layout
| settings_layout
| dashboard_layout.

(** [not login_state or not login_state.get('logged_in')]: the store is
    empty, or holds an empty dictionary, or has no true [logged_in]. *)
Definition not_logged_in (login_state : option (dict bool)) : bool :=
  match login_state with
  | None => true
  | Some [] => true
  | Some d =>
      match dict_get d "logged_in" with
      | Some true => false
      | _ => true
      end
  end.

Definition display_page (pathname : option string)
    (login_state : option (dict bool)) : Layout :=
  let at_path path :=
    match pathname with
    | Some p => String.eqb p path
    | None => false
    end in
  if at_path "/logout"%string then login_layout
  else if at_path "/register"%string then register_layout
  else if not_logged_in login_state then login_layout
  else if at_path "/insights"%string then insights_layout
  else if at_path "/settings"%string then settings_layout
  else dashboard_layout.

(* ================================================================== *)
(** * Attack cards  (dashboard.py, lines 532-603) *)
(* ================================================================== *)

(** A card of the grid: its component id, its caption and whether it is
    drawn as the selected one.  Every style of a card is a function of
    [is_sel] and is left out, as is the icon. *)
Record Card : Type := mkCard {
  card_id : string;
  card_name : string;
  is_sel : bool
}.

Definition cards_meta : list (string * string) :=
  [("ddos-card", "DDoS"); ("dos-card", "DoS"); ("portscan-card", "Port Scan");
   ("bruteforce-card", "Brute Force"); ("botnet-card", "Botnet");
   ("webattacks-card", "Web Attacks")]%string.

(** [enumerate(l)], counting from [start]. *)
Fixpoint enumerate {A : Type} (start : Z) (l : list A) : list (Z * A) :=
  match l with
  | [] => []
  | x :: rest => (start, x) :: enumerate (start + 1) rest
  end.

Definition _build_attack_cards (selected_idx : Z) : list Card :=
  map (fun ic : Z * (string * string) =>
         let '(i, card) := ic in
         mkCard (fst card) (snd card) (Z.eqb i selected_idx))
      (enumerate 0 cards_meta).

(** [l.index(x)]: the position of the first entry equal to [x].  (Python
    raises when there is none; the callback asks for the maximum, which
    is always there.) *)
Fixpoint index (x : nat) (l : list nat) : nat :=
  match l with
  | [] => 0
  | y :: rest => if Nat.eqb y x then 0 else S (index x rest)
  end.

(** [n or 0] for a click count, which is a number or [None]. *)
Definition or_zero (n : option nat) : nat :=
  match n with
  | Some k => k
  | None => 0
  end.

(** Lines 600-602: the index of the card to select. *)
Definition selected_index (clicks : list nat) : Z :=
  if Nat.ltb 0 (list_max clicks)
  then Z.of_nat (index (list_max clicks) clicks)
  else (-1)%Z.

Definition update_attack_selection
    (ddos dos portscan bruteforce botnet webattacks : option nat)
  : list Card :=
  let clicks := [or_zero ddos; or_zero dos; or_zero portscan;
                 or_zero bruteforce; or_zero botnet; or_zero webattacks] in
  let selected_idx := selected_index clicks in
  _build_attack_cards selected_idx.

(* ================================================================== *)
(** * Sessions: registrations in a row, and what a login opens *)
(* ================================================================== *)

(** A run of registration attempts (user name, e-mail, password), each on
    the table the one before left. *)
Definition register_all (db : dict Account)
    (attempts : list (option string * option string * option string))
  : dict Account :=
  fold_left
    (fun db a =>
       snd (register_user db None (fst (fst a)) (snd (fst a)) (snd a)))
    attempts db.

(** The user name and the password are filled in, and the table holds the
    name with that password. *)
Definition valid_credentials (db : dict Account)
    (username password : option string) : Prop :=
  exists name pw account,
    username = Some name /\ password = Some pw
    /\ name <> ""%string /\ pw <> ""%string
    /\ dict_get db name = Some account /\ acct_password account = pw.

(** The pages behind the login. *)
Definition protected (l : Layout) : bool :=
  match l with
  | insights_layout | settings_layout | dashboard_layout => true
  | login_layout | register_layout => false
  end.

(* ================================================================== *)
(** * File upload  (app.py, lines 354-392) *)
(* ================================================================== *)

(** Text is a string of bytes (UTF-8).  [s.split(',')]: *)
Fixpoint split_comma (s : string) : list string :=
  match s with
  | EmptyString => [EmptyString]
  | String c rest =>
      if Ascii.eqb c ","%char
      then EmptyString :: split_comma rest
      else
        match split_comma rest with
        | part :: parts => String c part :: parts
        | [] => [String c EmptyString]
        end
  end.

(** [s.lower()] changes the letters A-Z; the bytes of a character outside
    ASCII are never turned into an ASCII letter of [csv]. *)
Definition lower_ascii (c : ascii) : ascii :=
  let n := nat_of_ascii c in
  if (Nat.leb 65 n && Nat.leb n 90)%bool then ascii_of_nat (n + 32) else c.

Fixpoint lower (s : string) : string :=
  match s with
  | EmptyString => EmptyString
  | String c rest => String (lower_ascii c) (lower rest)
  end.

(** [needle in s] *)
Fixpoint contains (needle s : string) : bool :=
  (String.prefix needle s
   || match s with
      | EmptyString => false
      | String _ rest => contains needle rest
      end)%bool.

(** [f"{n:,}"]: the decimal digits of [n] with a comma before every group
    of three, counted from the right. *)
Fixpoint group_digits (digits : list ascii) : list ascii :=
  match digits with
  | a :: b :: c :: (_ :: _) as rest =>
      a :: b :: c :: ","%char :: group_digits rest
  | _ => digits
  end.

Definition format_thousands (n : nat) : string :=
  string_of_list_ascii
    (rev (group_digits (rev (list_ascii_of_string (str n))))).

(** [df.select_dtypes(include=np.number).columns.tolist()] *)
Definition is_number (d : dtype) : bool :=
  match d with
  | int64 | float64 => true
  | bool_ | object_ => false
  end.

Definition select_dtypes_number (df : DataFrame) : list string :=
  map fst (filter (fun c => is_number (dtype_of (snd c))) (df_columns df)).

(** The message shown under the upload box, by the parts its text is
    built from; the colours are left out. *)
Inductive Message : Type :=
| placeholder_msg
| not_csv_msg
| error_msg (e : string)
| loaded_msg (filename rows features : string).

(** The six outputs of the callback, in the order of its [Output] list;
    an option of the dropdown is recorded by its [value], its [label]
    being the same name restyled. *)
Record Upload : Type := mkUpload {
  output_data_upload : Message;
  feature_options : list string;
  stored_data : option (list (list (string * Cell)));
  numeric_cols_store : option (list string);
  total_rows_kpi : string;
  numeric_features_kpi : string
}.

(** What the callback raises: the unpacking of line 363 wants two parts,
    and [base64.b64decode] refuses a malformed payload. *)
Inductive upload_exn : Type :=
| ValueError_unpack (parts : nat)
| binascii_Error.

Definition nothing_loaded (m : Message) : Upload :=
  mkUpload m [] None None "0" "0".

Section Upload.

(** [base64.b64decode], [None] when it raises. *)
Variable b64decode : string -> option string.

(** [pd.read_csv(io.StringIO(decoded.decode('utf-8')))]: the frame, or the
    text of the exception that decoding or parsing raised. *)
Variable read_csv : string -> string + DataFrame.

Definition handle_file_upload (contents filename : option string)
  : upload_exn + Upload :=
  match contents with
  | None => inr (nothing_loaded placeholder_msg)
  | Some contents =>
      match split_comma contents with
      | [_; content_string] =>
          match b64decode content_string with
          | None => inl binascii_Error
          | Some decoded =>
              match filename with
              | None =>
                  inr (nothing_loaded
                         (error_msg
                            "'NoneType' object has no attribute 'lower'"))
              | Some filename =>
                  if contains "csv" (lower filename)
                  then
                    match read_csv decoded with
                    | inl e => inr (nothing_loaded (error_msg e))
                    | inr df =>
                        let numeric_columns := select_dtypes_number df in
                        let rows :=
                          format_thousands (List.length (df_index df)) in
                        let features := str (List.length numeric_columns) in
                        inr (mkUpload
                               (loaded_msg filename rows features)
                               numeric_columns
                               (Some (to_records df))
                               (Some numeric_columns)
                               rows
                               features)
                    end
                  else inr (nothing_loaded not_csv_msg)
              end
          end
      | parts => inl (ValueError_unpack (List.length parts))
      end
  end.

End Upload.

(** The number of commas of a text, and a text without them. *)
Fixpoint commas (s : string) : nat :=
  match s with
  | EmptyString => 0%nat
  | String c rest =>
      if Ascii.eqb c ","%char then S (commas rest) else commas rest
  end.

Definition without_commas (s : string) : string :=
  string_of_list_ascii
    (filter (fun c => negb (Ascii.eqb c ","%char)) (list_ascii_of_string s)).

(** A cell that holds a number. *)
Definition number_cell (c : Cell) : bool :=
  match c with
  | CInt _ | CFloat _ => true
  | CBool _ | CStr _ => false
  end.

(** [record[name]] *)
Fixpoint field (record : list (string * Cell)) (name : string)
  : option Cell :=
  match record with
  | [] => None
  | (k, c) :: rest => if String.eqb k name then Some c else field rest name
  end.

(** A decoder that hands the payload on, a parser that reads the scenario
    of the spec whatever the text, and the outputs of that upload. *)
Definition plain (payload : string) : option string := Some payload.

Definition parsed_scenario (text : string) : string + DataFrame :=
  inr scenario.

Definition uploaded_scenario : Upload :=
  mkUpload (loaded_msg "rows.csv" "5" "1")
           ["x"%string]
           (Some (to_records scenario))
           (Some ["x"%string])
           "5" "1".

(** Two stored tables of one anomalous row each, and one without rows. *)
Definition one_row : SplitJson :=
  mkSplitJson ["x"%string] [4%nat] [[CInt 100]].

Definition another_row : SplitJson :=
  mkSplitJson ["y"%string; "z"%string] [0%nat] [[CInt 7; CStr "a"]].

Definition no_rows : SplitJson := mkSplitJson ["x"%string] [] [].

(* ================================================================== *)
(** * The numeric helpers on small inputs *)
(* ================================================================== *)

Example of_Z_small : of_Z 100 = 100 /\ of_Z (-7) = -7 /\ of_Z 0 = 0.
Proof. repeat split; reflexivity. Qed.

(** Above 2^53 an integer is rounded to the nearest float, ties to even. *)
Example of_Z_rounds :
  of_Z 9007199254740993 = 9007199254740992
  /\ of_Z 9007199254740995 = 9007199254740996.
Proof. repeat split; reflexivity. Qed.

Example rint_ties_to_even :
  rint 2.5 = 2 /\ rint 3.5 = 4 /\ rint (-2.5) = -2 /\ rint 0.4 = 0.
Proof. repeat split; reflexivity. Qed.

Example round2_small :
  round2 1.9993428618189626 = 2
  /\ round2 (-1.2247448713915889) = -1.22
  /\ round2 0.125 = 0.12.
Proof. repeat split; reflexivity. Qed.

Example str_small : str 0 = "0"%string /\ str 12 = "12"%string.
Proof. repeat split; reflexivity. Qed.

(** Python adds ten times 0.1 to 0.9999999999999999; NumPy, on its eight
    running sums, to 1. *)
Example sums_in_numpy_order :
  fsum (repeat 0.1 10) = 1
  /\ fold_left add (repeat 0.1 10) 0 = 0.99999999999999989
  /\ fsum (repeat 0.1 15) = 1.5000000000000004
  /\ fsum (repeat 0.1 300) = 29.999999999999996.
Proof. repeat split; vm_compute; reflexivity. Qed.

(** The recursion of the sum never runs out of fuel: every bound from the
    length of the array on gives the same sum. *)
Lemma pairwise_sum_fuel (fuel fuel' : nat) (a : list float) :
  (List.length a <= fuel)%nat -> (List.length a <= fuel')%nat ->
  pairwise_sum fuel a = pairwise_sum fuel' a.
Proof.
  revert fuel' a. induction fuel as [|fuel IH]; intros fuel' a H H'.
  - destruct a; [|simpl in H; lia]. destruct fuel'; reflexivity.
  - destruct fuel' as [|fuel'].
    + destruct a; [reflexivity | simpl in H'; lia].
    + cbn [pairwise_sum].
      destruct (Nat.ltb (List.length a) 8); [reflexivity|].
      destruct (Nat.leb_spec (List.length a) 128) as [Hs|Hl]; [reflexivity|].
      set (n := List.length a) in *.
      assert (Hn2 : (0 < n / 2 - (n / 2) mod 8 < n)%nat).
      { pose proof (Nat.div_mod_eq n 2) as E.
        pose proof (Nat.mod_upper_bound n 2 ltac:(lia)).
        pose proof (Nat.mod_upper_bound (n / 2) 8 ltac:(lia)). lia. }
      f_equal; apply IH;
        rewrite ?length_firstn, ?length_skipn; fold n; lia.
Qed.

Example mean_std_small :
  mean [2; 4; 4; 4; 5; 5; 7; 9] = 5 /\ std [2; 4; 4; 4; 5; 5; 7; 9] = 2.
Proof. repeat split; reflexivity. Qed.

(* ================================================================== *)
(** * Comparisons of binary64 numbers *)
(* ================================================================== *)

(** The comparisons below go through the specification of the primitive
    operations ([ltb_spec], [abs_spec], ...), which reads a float as a sign,
    a mantissa and an exponent. *)

Lemma SFcompare_antisym (x y : spec_float) :
  SFcompare y x = option_map CompOpp (SFcompare x y).
Proof.
  destruct x as [sx|sx| |sx mx ex], y as [sy|sy| |sy my ey]; simpl;
    try destruct sx; try destruct sy; simpl; try reflexivity.
  all: rewrite (Z.compare_antisym ex ey);
       destruct (ex ?= ey)%Z; simpl; try reflexivity.
  all: rewrite (Pos.compare_cont_antisym mx my Eq); reflexivity.
Qed.

(** Rewrites a goal on primitive comparisons into one on [SFcompare]. *)
Ltac by_float_spec :=
  rewrite ?eqb_spec, ?ltb_spec, ?leb_spec, ?abs_spec;
  unfold SFeqb, SFltb, SFleb;
  change (Prim2SF 0) with (S754_zero false).

(** The four shapes of a float, with the sign made explicit. *)
Ltac float_cases x :=
  destruct (Prim2SF x) as [[|]|[|]| |[|] ? ?].

Lemma eqb_not_ltb (x y : float) : (x =? y) = true -> (x >? y) = false.
Proof.
  by_float_spec.
  rewrite (SFcompare_antisym (Prim2SF x) (Prim2SF y)).
  destruct (SFcompare (Prim2SF x) (Prim2SF y)) as [[ | | ]|];
    simpl; congruence.
Qed.

Lemma leb_not_ltb (x y : float) : (x <=? y) = true -> (x >? y) = false.
Proof.
  by_float_spec.
  rewrite (SFcompare_antisym (Prim2SF x) (Prim2SF y)).
  destruct (SFcompare (Prim2SF x) (Prim2SF y)) as [[ | | ]|];
    simpl; congruence.
Qed.

(** NaN exceeds nothing. *)
Lemma nan_not_above (t : float) : (nan >? t) = false.
Proof. by_float_spec. float_cases t; reflexivity. Qed.

(** Every magnitude exceeds a threshold below zero. *)
Lemma abs_above_negative (t z : float) :
  (z =? z) = true -> (t <? 0) = true -> (abs z >? t) = true.
Proof. by_float_spec. float_cases z; float_cases t; simpl; congruence. Qed.

(** Every magnitude but zero exceeds a threshold of at most zero. *)
Lemma abs_above_nonpositive (t z : float) :
  (z =? z) = true -> (z =? 0) = false -> (t <=? 0) = true ->
  (abs z >? t) = true.
Proof. by_float_spec. float_cases z; float_cases t; simpl; congruence. Qed.

(** The magnitude of a zero exceeds negative thresholds only. *)
Lemma abs_zero_not_above (t z : float) :
  (z =? 0) = true -> (t <? 0) = false -> (abs z >? t) = false.
Proof. by_float_spec. float_cases z; float_cases t; simpl; congruence. Qed.

(** A ratio of at most 0.2 does not exceed 0.5. *)
Lemma fifth_not_above_half (r : float) :
  (r <=? 0.2) = true -> (r >? 0.5) = false.
Proof.
  by_float_spec.
  change (Prim2SF 0.2) with (S754_finite false 7205759403792794 (-55)).
  change (Prim2SF 0.5) with (S754_finite false 4503599627370496 (-53)).
  float_cases r; cbn [SFcompare]; try congruence.
  destruct (Z.compare_spec e (-55)), (Z.compare_spec (-53) e);
    intros; try reflexivity; try congruence; lia.
Qed.

(* ================================================================== *)
(** * The labeler *)
(* ================================================================== *)

(** A NaN score is Normal at every threshold. *)
Lemma anomaly_label_nan (t : float) : anomaly_label t nan = "Normal"%string.
Proof.
  unfold anomaly_label. change (abs nan) with nan. now rewrite nan_not_above.
Qed.

(** C2. The labeler answers Abnormal exactly when the magnitude of the
    score is strictly above the threshold; a score whose magnitude equals
    the threshold is Normal. *)
Theorem labeler_strict (z t : float) :
  (anomaly_label t z = "Abnormal"%string <-> (abs z >? t) = true)
  /\ ((abs z =? t) = true -> anomaly_label t z = "Normal"%string).
Proof.
  split.
  - unfold anomaly_label. destruct (abs z >? t); split; congruence.
  - intros Heq. unfold anomaly_label.
    now rewrite (eqb_not_ltb (abs z) t Heq).
Qed.

Lemma labeler_strict_witness :
  anomaly_label 3 (-3) = "Normal"%string.
Proof.
  apply (proj2 (labeler_strict (-3) 3)). reflexivity.
Defined.

(* ================================================================== *)
(** * Columns of a frame *)
(* ================================================================== *)

Lemma lookup_store_same cols k s : lookup (store cols k s) k = Some s.
Proof.
  induction cols as [|[k' s'] cols IH]; simpl.
  - now rewrite String.eqb_refl.
  - destruct (String.eqb k' k) eqn:E; simpl; rewrite E; auto.
Qed.

Lemma lookup_store_other cols k k' s :
  k <> k' -> lookup (store cols k s) k' = lookup cols k'.
Proof.
  intros Hne. induction cols as [|[k0 s0] cols IH]; simpl.
  - apply String.eqb_neq in Hne. now rewrite Hne.
  - destruct (String.eqb k0 k) eqn:E; simpl.
    + apply String.eqb_eq in E. subst k0.
      apply String.eqb_neq in Hne. now rewrite Hne.
    + now rewrite IH.
Qed.

Lemma store_store cols k a b : store (store cols k a) k b = store cols k b.
Proof.
  induction cols as [|[k' s'] cols IH]; simpl.
  - now rewrite String.eqb_refl.
  - destruct (String.eqb k' k) eqn:E; simpl; rewrite E; congruence.
Qed.

Lemma select_store mask cols k s :
  map (fun c => (fst c, select_series mask (snd c))) (store cols k s)
  = store (map (fun c => (fst c, select_series mask (snd c))) cols)
          k (select_series mask s).
Proof.
  induction cols as [|[k' s'] cols IH]; simpl; auto.
  destruct (String.eqb k' k); simpl; congruence.
Qed.

Lemma column_set_same df k s : column (set_column df k s) k = s.
Proof.
  unfold column, get_column, set_column; simpl.
  now rewrite lookup_store_same.
Qed.

Lemma column_set_other df k k' s :
  k <> k' -> column (set_column df k s) k' = column df k'.
Proof.
  intros Hne. unfold column, get_column, set_column; simpl.
  now rewrite lookup_store_other.
Qed.

Lemma has_column_set_same df k s : has_column (set_column df k s) k = true.
Proof.
  unfold has_column, get_column, set_column; simpl.
  now rewrite lookup_store_same.
Qed.

Lemma set_column_twice df k a b :
  set_column (set_column df k a) k b = set_column df k b.
Proof.
  unfold set_column; simpl. now rewrite store_store.
Qed.

Lemma select_rows_set_column mask df k s :
  select_rows mask (set_column df k s)
  = set_column (select_rows mask df) k (select_series mask s).
Proof.
  unfold select_rows, set_column; simpl. now rewrite select_store.
Qed.

(** Rewriting with these normalises a frame that columns were stored in. *)
Create Rewrite HintDb frame.
#[local] Hint Rewrite
  column_set_same set_column_twice select_rows_set_column : frame.
#[local] Hint Rewrite column_set_other using discriminate : frame.

Lemma select_none {A : Type} (l : list A) (n : nat) :
  select (repeat false n) l = [].
Proof.
  revert l. induction n as [|n IH]; intros [|x l]; simpl; auto.
Qed.

Lemma select_map_false {A B : Type} (l : list A) (l' : list B) :
  select (map (fun _ => false) l) l' = [].
Proof.
  revert l'. induction l as [|x l IH]; intros [|y l']; simpl; auto.
Qed.

Lemma to_floats_length (s : Series) :
  existsb (dtype_eqb (dtype_of s)) [int64; float64] = true ->
  List.length (to_floats s) = series_length s.
Proof.
  destruct s; simpl; try discriminate; intros _.
  - apply length_map.
  - reflexivity.
Qed.

Lemma zscore_length (a : list float) :
  List.length (zscore a) = List.length a.
Proof.
  unfold zscore. destruct (degenerate a); now rewrite !length_map.
Qed.

(** In a sample that is not degenerate every score is the deviation from
    the mean divided by the population standard deviation. *)
Lemma zscore_regular (a : list float) :
  degenerate a = false ->
  zscore a = map (fun v => (v - mean a) / std a) a.
Proof. unfold zscore. now intros ->. Qed.

(** In a degenerate sample every score is NaN. *)
Lemma zscore_degenerate (a : list float) :
  degenerate a = true -> zscore a = map (fun _ => nan) a.
Proof. unfold zscore. intros ->. now rewrite map_map. Qed.

(** A standard deviation of zero makes the sample degenerate, whenever the
    mean is a number. *)
Lemma std_zero_degenerate (a : list float) :
  (std a =? 0) = true -> is_nan (eps * mean a) = false ->
  degenerate a = true.
Proof.
  unfold degenerate, is_nan.
  rewrite !eqb_spec, leb_spec, abs_spec. unfold SFeqb, SFleb.
  change (Prim2SF 0) with (S754_zero false).
  destruct (Prim2SF (std a)) as [s|s| |s m e],
           (Prim2SF (eps * mean a)) as [s'|s'| |s' m' e'];
    simpl; try destruct s; try destruct s'; simpl; try congruence.
  all: rewrite ?Z.compare_refl, ?Pos.compare_cont_refl; simpl; congruence.
Qed.

(* ================================================================== *)
(** * The three ways [update_analysis] ends *)
(* ================================================================== *)

Lemma index_series_set_column df k s :
  index_series (set_column df k s) = index_series df.
Proof. reflexivity. Qed.

(** The [index] column the scatter plot may add does not show in the table
    of anomalous rows, which writes its own. *)
Lemma anomalous_rows_index df :
  anomalous_rows (set_column df "index" (index_series df)) = anomalous_rows df.
Proof.
  unfold anomalous_rows.
  autorewrite with frame.
  rewrite index_series_set_column.
  now autorewrite with frame.
Qed.

(** The guard of line 422 sends the call to the placeholder. *)
Lemma update_analysis_rejected df nc sel t :
  negb (has_column df sel)
  || negb (existsb (dtype_eqb (dtype_of (column df sel))) [int64; float64])
  = true ->
  update_analysis (Some df) nc (Some sel) t = Ok no_analysis.
Proof.
  intros Hguard. unfold update_analysis.
  destruct nc as [nc|]; [now rewrite Hguard | reflexivity].
Qed.

(** An array of scores shorter or longer than the frame stops the call at
    line 425. *)
Lemma score_rows_raises df sel t :
  List.length (zscore (to_floats (dropna (column df sel))))
  <> List.length (df_index df) ->
  score_rows df sel t
  = Raise (ValueError_length
             (List.length (zscore (to_floats (dropna (column df sel)))))
             (List.length (df_index df))).
Proof.
  intros Hlen. unfold score_rows, set_array.
  apply Nat.eqb_neq in Hlen. now rewrite Hlen.
Qed.

(** An array of the frame's length is stored, and labelled row by row. *)
Lemma score_rows_scored df sel t :
  List.length (zscore (to_floats (dropna (column df sel))))
  = List.length (df_index df) ->
  score_rows df sel t
  = let zs := zscore (to_floats (dropna (column df sel))) in
    Ok (set_column (set_column df "z_score" (Float64 zs)) "anomaly_label"
                   (Object (map (anomaly_label t) zs))).
Proof.
  intros Hlen. unfold score_rows, set_array.
  rewrite Hlen, Nat.eqb_refl. unfold bind.
  now rewrite column_set_same.
Qed.

Lemma update_analysis_raises df nc sel t :
  has_column df sel = true ->
  existsb (dtype_eqb (dtype_of (column df sel))) [int64; float64] = true ->
  List.length (zscore (to_floats (dropna (column df sel))))
  <> List.length (df_index df) ->
  update_analysis (Some df) (Some nc) (Some sel) t
  = Raise (ValueError_length
             (List.length (zscore (to_floats (dropna (column df sel)))))
             (List.length (df_index df))).
Proof.
  intros Hhas Hdt Hlen. unfold update_analysis.
  rewrite Hhas, Hdt. simpl negb. simpl orb. cbv iota.
  now rewrite (score_rows_raises df sel t Hlen).
Qed.

Lemma has_column_set df k s k' :
  has_column (set_column df k s) k' = has_column df k' || String.eqb k k'.
Proof.
  unfold has_column, get_column, set_column. cbn [df_columns].
  destruct (String.eqb_spec k k') as [<-|Hne].
  - now rewrite lookup_store_same, orb_true_r.
  - now rewrite lookup_store_other, orb_false_r.
Qed.

Lemma scatter_frame_cases labelled nc sel :
  fst (fst (scatter_axes labelled nc sel)) = labelled
  \/ (fst (fst (scatter_axes labelled nc sel))
      = set_column labelled "index" (index_series labelled)
      /\ snd (scatter_axes labelled nc sel) = "index"%string).
Proof.
  unfold scatter_axes. destruct (String.eqb sel _); cbn; auto.
Qed.

Lemma filter_first_in {A} (f : A -> bool) l x rest :
  filter f l = x :: rest -> In x l /\ f x = true.
Proof.
  intros H. apply filter_In. rewrite H. now left.
Qed.

(** The loop of the histograms stops at the first name the frame does not
    have. *)
Lemma histograms_checked frame cols :
  histograms frame cols
  = if forallb (fun col => forallb (has_column frame)
                                   [col; "anomaly_label"%string]) cols
    then Ok (map (fun col => HistogramFig frame col "anomaly_label") cols)
    else Raise ValueError_column.
Proof.
  induction cols as [|col rest IH]; [reflexivity|].
  cbn [histograms map]. unfold px_histogram. rewrite IH. clear IH.
  cbn [forallb].
  destruct (has_column frame col), (has_column frame "anomaly_label");
    cbn [bind andb]; try reflexivity;
    match goal with
    | |- context [forallb ?f rest] => destruct (forallb f rest)
    end; reflexivity.
Qed.

(** A call that gets past line 425 returns its outputs when plotly accepts
    the columns it is given, and raises otherwise. *)
Lemma update_analysis_scored df nc sel t :
  has_column df sel = true ->
  existsb (dtype_eqb (dtype_of (column df sel))) [int64; float64] = true ->
  List.length (zscore (to_floats (dropna (column df sel))))
  = List.length (df_index df) ->
  update_analysis (Some df) (Some nc) (Some sel) t
  = let zs := zscore (to_floats (dropna (column df sel))) in
    let labelled :=
      set_column (set_column df "z_score" (Float64 zs)) "anomaly_label"
                 (Object (map (anomaly_label t) zs)) in
    let frame := fst (fst (scatter_axes labelled nc sel)) in
    let x := snd (fst (scatter_axes labelled nc sel)) in
    let y := snd (scatter_axes labelled nc sel) in
    if plots_accepted frame x y nc
    then
      Ok (mkOutputs
            (ScatterFig frame x y "anomaly_label" [x; y; "z_score"%string])
            (map (fun col => HistogramFig frame col "anomaly_label") nc)
            (to_records (anomalous_rows frame))
            (["index"%string] ++ nc ++ ["z_score"%string])
            (str (List.length (df_index (anomalous_rows frame))))
            (Some (to_json_split (anomalous_rows frame))))
    else Raise ValueError_column.
Proof.
  intros Hhas Hdt Hlen. unfold update_analysis.
  rewrite Hhas, Hdt. simpl negb. simpl orb. cbv iota.
  rewrite (score_rows_scored df sel t Hlen). cbv zeta. cbn [bind].
  destruct (scatter_axes _ nc sel) as [[frame x] y]. cbn [fst snd].
  unfold px_scatter, plots_accepted. rewrite histograms_checked.
  destruct (forallb (has_column frame) _); cbn [bind andb]; [|reflexivity].
  now destruct (forallb _ nc).
Qed.

(** plotly accepts the columns when [numeric_cols] names columns of the
    data. *)
Lemma plots_accepted_columns df nc sel (zs : Series) (ls : Series) :
  has_column df sel = true ->
  Forall (fun col => has_column df col = true) nc ->
  let labelled :=
    set_column (set_column df "z_score" zs) "anomaly_label" ls in
  plots_accepted (fst (fst (scatter_axes labelled nc sel)))
                 (snd (fst (scatter_axes labelled nc sel)))
                 (snd (scatter_axes labelled nc sel)) nc = true.
Proof.
  intros Hsel Hnc labelled.
  assert (Hlab : forall col, has_column df col = true ->
                             has_column labelled col = true).
  { intros col H. unfold labelled. rewrite !has_column_set, H. reflexivity. }
  assert (Hfr : forall col, has_column labelled col = true ->
                has_column (fst (fst (scatter_axes labelled nc sel))) col
                = true).
  { intros col H.
    destruct (scatter_frame_cases labelled nc sel) as [->|[-> _]];
      [exact H|]. rewrite has_column_set, H. reflexivity. }
  assert (Hz : has_column (fst (fst (scatter_axes labelled nc sel)))
                          "z_score" = true).
  { apply Hfr. unfold labelled. rewrite !has_column_set, String.eqb_refl.
    rewrite orb_true_r. reflexivity. }
  assert (Hl : has_column (fst (fst (scatter_axes labelled nc sel)))
                          "anomaly_label" = true).
  { apply Hfr. unfold labelled. rewrite has_column_set, String.eqb_refl.
    apply orb_true_r. }
  assert (Hx : has_column (fst (fst (scatter_axes labelled nc sel)))
                          (snd (fst (scatter_axes labelled nc sel))) = true).
  { replace (snd (fst (scatter_axes labelled nc sel))) with sel
      by (unfold scatter_axes; destruct (String.eqb sel _); reflexivity).
    auto. }
  assert (Hy : has_column (fst (fst (scatter_axes labelled nc sel)))
                          (snd (scatter_axes labelled nc sel)) = true).
  { unfold scatter_axes.
    destruct (filter _ nc) as [|other rest] eqn:Hf.
    - rewrite String.eqb_refl. cbn [fst snd].
      rewrite has_column_set, String.eqb_refl. apply orb_true_r.
    - destruct (String.eqb sel other) eqn:E; cbn [fst snd].
      + rewrite has_column_set, String.eqb_refl. apply orb_true_r.
      + apply Hlab. rewrite Forall_forall in Hnc. apply Hnc.
        now apply filter_first_in in Hf. }
  unfold plots_accepted. cbn [app forallb].
  rewrite Hx, Hy, Hz, Hl. cbn [andb].
  apply forallb_forall. intros col Hc. rewrite andb_true_r.
  apply Hfr, Hlab. rewrite Forall_forall in Hnc. auto.
Qed.

(** What the engine hands back does not mention [numeric_cols]: the
    [index] column of the scatter plot does not reach the stored rows. *)
Lemma engine_of_scored df nc sel t (zs : list float) :
  let labelled :=
    set_column (set_column df "z_score" (Float64 zs)) "anomaly_label"
               (Object (map (anomaly_label t) zs)) in
  let frame := fst (fst (scatter_axes labelled nc sel)) in
  let x := snd (fst (scatter_axes labelled nc sel)) in
  let y := snd (scatter_axes labelled nc sel) in
  engine_of
    (mkOutputs
       (ScatterFig frame x y "anomaly_label" [x; y; "z_score"%string])
       (map (fun col => HistogramFig frame col "anomaly_label") nc)
       (to_records (anomalous_rows frame))
       (["index"%string] ++ nc ++ ["z_score"%string])
       (str (List.length (df_index (anomalous_rows frame))))
       (Some (to_json_split (anomalous_rows frame))))
  = mkEngine (Float64 zs)
             (Object (map (anomaly_label t) zs))
             (str (List.length (df_index (anomalous_rows labelled))))
             (to_records (anomalous_rows labelled))
             (Some (to_json_split (anomalous_rows labelled))).
Proof.
  intros labelled frame x y. unfold engine_of.
  cbn [scatter_figure total_anomalies_kpi table_data anomalous_data_store].
  subst frame x y. unfold scatter_axes.
  destruct (String.eqb sel _); cbn [fst snd];
    rewrite ?anomalous_rows_index; subst labelled;
    now autorewrite with frame.
Qed.

(** A call that gets past line 425 hands back the scores and labels of
    every row, or is stopped by plotly. *)
Lemma engine_cases df nc sel t :
  has_column df sel = true ->
  existsb (dtype_eqb (dtype_of (column df sel))) [int64; float64] = true ->
  List.length (zscore (to_floats (dropna (column df sel))))
  = List.length (df_index df) ->
  update_analysis (Some df) (Some nc) (Some sel) t = Raise ValueError_column
  \/ engine (update_analysis (Some df) (Some nc) (Some sel) t)
     = let zs := zscore (to_floats (dropna (column df sel))) in
       let labelled :=
         set_column (set_column df "z_score" (Float64 zs)) "anomaly_label"
                    (Object (map (anomaly_label t) zs)) in
       let anomalous_points := anomalous_rows labelled in
       Ok (mkEngine (Float64 zs)
                    (Object (map (anomaly_label t) zs))
                    (str (List.length (df_index anomalous_points)))
                    (to_records anomalous_points)
                    (Some (to_json_split anomalous_points))).
Proof.
  intros Hhas Hdt Hlen.
  rewrite (update_analysis_scored df nc sel t Hhas Hdt Hlen). cbv zeta.
  destruct (plots_accepted _ _ _ nc); [right|now left].
  unfold engine. cbn [bind]. now rewrite engine_of_scored.
Qed.

(** With [numeric_cols] naming columns of the data, the call returns. *)
Lemma engine_scored df nc sel t :
  has_column df sel = true ->
  existsb (dtype_eqb (dtype_of (column df sel))) [int64; float64] = true ->
  List.length (zscore (to_floats (dropna (column df sel))))
  = List.length (df_index df) ->
  Forall (fun col => has_column df col = true) nc ->
  engine (update_analysis (Some df) (Some nc) (Some sel) t)
  = let zs := zscore (to_floats (dropna (column df sel))) in
    let labelled :=
      set_column (set_column df "z_score" (Float64 zs)) "anomaly_label"
                 (Object (map (anomaly_label t) zs)) in
    let anomalous_points := anomalous_rows labelled in
    Ok (mkEngine (Float64 zs)
                 (Object (map (anomaly_label t) zs))
                 (str (List.length (df_index anomalous_points)))
                 (to_records anomalous_points)
                 (Some (to_json_split anomalous_points))).
Proof.
  intros Hhas Hdt Hlen Hnc.
  rewrite (update_analysis_scored df nc sel t Hhas Hdt Hlen). cbv zeta.
  rewrite (plots_accepted_columns df nc sel _ _ Hhas Hnc).
  unfold engine. cbn [bind]. now rewrite engine_of_scored.
Qed.

(* ================================================================== *)
(** * Scoring a column without missing entries *)
(* ================================================================== *)

Lemma lookup_length cols name s (n : nat) :
  Forall (fun c => series_length (snd c) = n) cols ->
  lookup cols name = Some s -> series_length s = n.
Proof.
  induction 1 as [|[k s'] cols Hk _ IH]; simpl; [discriminate|].
  destruct (String.eqb k name); [now intros [= <-]|exact IH].
Qed.

Lemma column_length df sel :
  well_formed df -> has_column df sel = true ->
  series_length (column df sel) = List.length (df_index df).
Proof.
  unfold well_formed, has_column, column, get_column. intros Hwf.
  destruct (lookup (df_columns df) sel) as [s|] eqn:E; [|discriminate].
  intros _. exact (lookup_length _ _ _ _ Hwf E).
Qed.

Lemma scored_length df sel :
  well_formed df -> has_column df sel = true ->
  existsb (dtype_eqb (dtype_of (column df sel))) [int64; float64] = true ->
  dropna (column df sel) = column df sel ->
  List.length (zscore (to_floats (dropna (column df sel))))
  = List.length (df_index df).
Proof.
  intros Hwf Hhas Hdt Hdrop.
  now rewrite Hdrop, zscore_length, to_floats_length, column_length.
Qed.

(** A numeric column without missing entries is scored row for row: with
    [numeric_cols] naming columns of the data the call returns, and the
    score column has one entry per row. *)
Lemma complete_column_scored df nc sel t :
  well_formed df ->
  has_column df sel = true ->
  existsb (dtype_eqb (dtype_of (column df sel))) [int64; float64] = true ->
  dropna (column df sel) = column df sel ->
  Forall (fun col => has_column df col = true) nc ->
  exists e : Engine,
    engine (update_analysis (Some df) (Some nc) (Some sel) t) = Ok e
    /\ series_length (scores e) = List.length (df_index df)
    /\ series_length (labels e) = List.length (df_index df).
Proof.
  intros Hwf Hhas Hdt Hdrop Hnc.
  pose proof (scored_length df sel Hwf Hhas Hdt Hdrop) as Hlen.
  eexists. split; [now apply engine_scored|].
  cbn [scores labels series_length]. now rewrite length_map.
Qed.

(** C1, as the code has it.  For every numeric column without missing
    entries that is not degenerate, lines 425-428 compute the mean and the
    population standard deviation (the sum of squared deviations divided
    by N) and give every row, in row order, the score (v - mean) / sigma
    and the label of that score; a call whose [numeric_cols] names columns
    of the data hands these scores and labels back.  For the values 1, 2,
    3, 4, 100 and the threshold 1.5 the mean is 22, the population variance
    1522, sigma is 39.01 to two decimals, the scores are -0.538, -0.513,
    -0.487, -0.461 and 1.999 to three decimals, and the last row alone is
    Abnormal. *)
Theorem zscore_population :
  (forall (df : DataFrame) (sel : string) (t : float),
      well_formed df ->
      has_column df sel = true ->
      existsb (dtype_eqb (dtype_of (column df sel))) [int64; float64] = true ->
      dropna (column df sel) = column df sel ->
      degenerate (to_floats (column df sel)) = false ->
      let a := to_floats (column df sel) in
      let n := of_nat (List.length a) in
      let mu := fsum a / n in
      let sigma := sqrt (fsum (map (fun v => (v - mu) * (v - mu)) a) / n) in
      let zs := map (fun v => (v - mu) / sigma) a in
      score_rows df sel t
      = Ok (set_column (set_column df "z_score" (Float64 zs)) "anomaly_label"
                       (Object (map (anomaly_label t) zs)))
      /\ forall nc : list string,
           Forall (fun col => has_column df col = true) nc ->
           exists e : Engine,
             engine (update_analysis (Some df) (Some nc) (Some sel) t) = Ok e
             /\ scores e = Float64 zs
             /\ labels e = Object (map (anomaly_label t) zs))
  /\ (let a := to_floats (Int64 [1; 2; 3; 4; 100]%Z) in
      mean a = 22
      /\ var a = 1522
      /\ close 0.005 (std a) 39.01 = true
      /\ all_close 0.0005 (zscore a)
                   [-0.538; -0.513; -0.487; -0.461; 1.999] = true
      /\ exists e : Engine,
           engine (update_analysis (Some scenario) (Some ["x"%string])
                                   (Some "x"%string) 1.5) = Ok e
           /\ scores e = Float64 (zscore a)
           /\ labels e = Object ["Normal"; "Normal"; "Normal"; "Normal";
                                 "Abnormal"]%string
           /\ anomaly_count e = "1"%string).
Proof.
  split.
  - intros df sel t Hwf Hhas Hdt Hdrop Hreg a n mu sigma zs.
    assert (Hz : zscore (to_floats (dropna (column df sel))) = zs).
    { rewrite Hdrop. fold a. rewrite (zscore_regular a Hreg).
      assert (Hmu : mean a = mu) by reflexivity.
      assert (Hsigma : std a = sigma).
      { unfold std, var, mean. now rewrite length_map. }
      now rewrite Hmu, Hsigma. }
    pose proof (scored_length df sel Hwf Hhas Hdt Hdrop) as Hlen.
    split.
    + rewrite (score_rows_scored df sel t Hlen). cbv zeta. now rewrite Hz.
    + intros nc Hnc. eexists. split.
      * apply engine_scored; auto.
      * cbn [scores labels]. rewrite Hz. split; reflexivity.
  - cbv zeta. repeat split; try (vm_compute; reflexivity).
    eexists. split; [vm_compute; reflexivity|].
    repeat split; vm_compute; reflexivity.
Qed.

Lemma zscore_population_witness :
  score_rows centred "x" 1
  = Ok (mkDataFrame [0; 1; 2]%nat
          [("x"%string, Int64 [1; 2; 3]%Z);
           ("z_score"%string,
            Float64 [-1.2247448713915889; 0; 1.2247448713915889]);
           ("anomaly_label"%string,
            Object ["Abnormal"; "Normal"; "Abnormal"]%string)])
  /\ exists e : Engine,
       engine (update_analysis (Some centred) (Some ["x"%string])
                               (Some "x"%string) 1) = Ok e
       /\ scores e = Float64 [-1.2247448713915889; 0; 1.2247448713915889]
       /\ labels e = Object ["Abnormal"; "Normal"; "Abnormal"]%string.
Proof.
  destruct (proj1 zscore_population centred "x"%string 1)
    as [Hrows Hcall]; try reflexivity; [repeat constructor|].
  split.
  - rewrite Hrows. vm_compute. reflexivity.
  - destruct (Hcall ["x"%string]) as [e [He [Hs Hl]]];
      [repeat constructor|].
    exists e. split; [exact He|]. split.
    + rewrite Hs. vm_compute. reflexivity.
    + rewrite Hl. vm_compute. reflexivity.
Defined.

(** C1, as the spec states it.  Sigma is not 38.93 to two decimals, and
    the scores are not -0.539, -0.514, -0.488, -0.462, 2.003 to three.  And
    two distinct values do not suffice for the formula: the column 1,
    1.0000000000000002 is degenerate, its scores are NaN where
    (v - mean) / sigma gives 0 and 1.414. *)
Lemma scenario_numbers_differ :
  (std (to_floats (Int64 [1; 2; 3; 4; 100]%Z)) = 39.012818406262319
   /\ close 0.01 (std (to_floats (Int64 [1; 2; 3; 4; 100]%Z))) 38.93 = false
   /\ zscore (to_floats (Int64 [1; 2; 3; 4; 100]%Z))
      = [-0.53828461664356686; -0.51265201585101605; -0.48701941505846524;
         -0.46138681426591444; 1.9993428618189626]
   /\ all_close 0.001 (zscore (to_floats (Int64 [1; 2; 3; 4; 100]%Z)))
                [-0.539; -0.514; -0.488; -0.462; 2.003] = false)
  /\ (let a := [1; 1.0000000000000002] in
      (1 =? 1.0000000000000002) = false
      /\ map (fun v => (v - mean a) / std a) a = [0; 1.4142135623730949]
      /\ zscore a = [nan; nan]
      /\ score_rows (mkDataFrame [0; 1]%nat [("x"%string, Float64 a)]) "x" 1
         = Ok (mkDataFrame [0; 1]%nat
                 [("x"%string, Float64 a);
                  ("z_score"%string, Float64 [nan; nan]);
                  ("anomaly_label"%string,
                   Object ["Normal"; "Normal"]%string)])).
Proof. cbv zeta. repeat split; vm_compute; reflexivity. Qed.

(* ================================================================== *)
(** * Degenerate columns *)
(* ================================================================== *)

Lemma labels_of_nan (t : float) (a : list float) :
  map (anomaly_label t) (map (fun _ => nan) a)
  = map (fun _ => "Normal"%string) a.
Proof.
  rewrite map_map. apply map_ext. intros _. apply anomaly_label_nan.
Qed.

Lemma no_row_abnormal (df : DataFrame) (a : list float) :
  df_index (anomalous_rows
              (set_column df "anomaly_label"
                          (Object (map (fun _ => "Normal"%string) a)))) = [].
Proof.
  unfold anomalous_rows. rewrite column_set_same.
  cbn [series_eq_str]. rewrite map_map.
  cbn [set_column select_rows df_index].
  change (fun x : float => String.eqb "Normal" "Abnormal")
    with (fun _ : float => false).
  apply select_map_false.
Qed.

(** C3, as the code has it.  A column without missing entries is
    degenerate when its standard deviation, as computed, is at most the
    rounding noise of its mean; a standard deviation of 0 beside a mean
    that is a number is a case of it.  Lines 425-428 then give every row
    the score NaN, not 0, and the label Normal at every threshold, and a
    call whose [numeric_cols] names columns of the data hands these back
    and reports no row.  The values 5, 5, 5, 5 at the threshold 3 are an
    instance. *)
Theorem degenerate_scores_nan :
  (forall (df : DataFrame) (sel : string) (t : float),
      well_formed df ->
      has_column df sel = true ->
      existsb (dtype_eqb (dtype_of (column df sel))) [int64; float64] = true ->
      dropna (column df sel) = column df sel ->
      degenerate (to_floats (column df sel)) = true ->
      let a := to_floats (column df sel) in
      score_rows df sel t
      = Ok (set_column
              (set_column df "z_score" (Float64 (map (fun _ => nan) a)))
              "anomaly_label" (Object (map (fun _ => "Normal"%string) a)))
      /\ forall nc : list string,
           Forall (fun col => has_column df col = true) nc ->
           exists e : Engine,
             engine (update_analysis (Some df) (Some nc) (Some sel) t) = Ok e
             /\ scores e = Float64 (map (fun _ => nan) a)
             /\ labels e = Object (map (fun _ => "Normal"%string) a)
             /\ anomaly_count e = "0"%string
             /\ anomalous_table e = [])
  /\ (forall a : list float,
        (std a =? 0) = true -> is_nan (eps * mean a) = false ->
        degenerate a = true)
  /\ (let a := to_floats (Int64 [5; 5; 5; 5]%Z) in
      degenerate a = true
      /\ zscore a = [nan; nan; nan; nan]
      /\ exists e : Engine,
           engine (update_analysis (Some constant_scenario)
                                   (Some ["x"%string]) (Some "x"%string) 3)
           = Ok e
           /\ scores e = Float64 [nan; nan; nan; nan]
           /\ labels e = Object ["Normal"; "Normal"; "Normal"; "Normal"]%string
           /\ anomaly_count e = "0"%string).
Proof.
  split; [|split].
  - intros df sel t Hwf Hhas Hdt Hdrop Hdeg a.
    assert (Hz : zscore (to_floats (dropna (column df sel)))
                 = map (fun _ => nan) a).
    { rewrite Hdrop. fold a. apply (zscore_degenerate _ Hdeg). }
    pose proof (scored_length df sel Hwf Hhas Hdt Hdrop) as Hlen.
    split.
    + rewrite (score_rows_scored df sel t Hlen). cbv zeta.
      now rewrite Hz, labels_of_nan.
    + intros nc Hnc. eexists. split.
      * apply engine_scored; auto.
      * cbn [scores labels anomaly_count anomalous_table].
        rewrite Hz, labels_of_nan. repeat split.
        -- now rewrite no_row_abnormal.
        -- unfold to_records. now rewrite no_row_abnormal.
  - exact std_zero_degenerate.
  - cbv zeta. repeat split; try (vm_compute; reflexivity).
    eexists. split; [vm_compute; reflexivity|].
    repeat split; vm_compute; reflexivity.
Qed.

Lemma degenerate_scores_nan_witness :
  score_rows constant_scenario "x" 3
  = Ok (mkDataFrame [0; 1; 2; 3]%nat
          [("x"%string, Int64 [5; 5; 5; 5]%Z);
           ("z_score"%string, Float64 [nan; nan; nan; nan]);
           ("anomaly_label"%string,
            Object ["Normal"; "Normal"; "Normal"; "Normal"]%string)])
  /\ exists e : Engine,
       engine (update_analysis (Some constant_scenario) (Some ["x"%string])
                               (Some "x"%string) 3) = Ok e
       /\ scores e = Float64 [nan; nan; nan; nan]
       /\ labels e = Object ["Normal"; "Normal"; "Normal"; "Normal"]%string
       /\ anomaly_count e = "0"%string
       /\ anomalous_table e = [].
Proof.
  destruct (proj1 degenerate_scores_nan constant_scenario "x"%string 3)
    as [Hrows Hcall]; try reflexivity; [repeat constructor|].
  split; [exact Hrows|].
  apply (Hcall ["x"%string]). repeat constructor.
Defined.

(** A column of a single row is degenerate as well. *)
Example single_row_degenerate :
  degenerate [7] = true /\ zscore [7] = [nan].
Proof. split; reflexivity. Qed.

(** C3, as the spec states it.  The scores of 5, 5, 5, 5 are not 0.0.
    Identical values do not make a column degenerate: the mean of fifteen
    values 0.1 is 0.10000000000000003, every score is -1, and at the
    threshold 0.5 all fifteen rows are Abnormal.  And a column with one
    value beside a missing entry is not scored at all: the call raises. *)
Lemma constant_scores_not_zero :
  (std (to_floats (Int64 [5; 5; 5; 5]%Z)) = 0
   /\ zscore (to_floats (Int64 [5; 5; 5; 5]%Z)) = [nan; nan; nan; nan]
   /\ forallb (fun z => z =? 0) (zscore (to_floats (Int64 [5; 5; 5; 5]%Z)))
      = false)
  /\ (let a := repeat 0.1 15 in
      mean a = 0.10000000000000003
      /\ degenerate a = false
      /\ zscore a = repeat (-1) 15
      /\ exists e : Engine,
           engine (update_analysis
                     (Some (mkDataFrame (seq 0 15) [("x"%string, Float64 a)]))
                     (Some ["x"%string]) (Some "x"%string) 0.5) = Ok e
           /\ labels e = Object (repeat "Abnormal"%string 15)
           /\ anomaly_count e = "15"%string)
  /\ update_analysis
       (Some (mkDataFrame [0; 1]%nat [("x"%string, Float64 [7; nan])]))
       (Some ["x"%string]) (Some "x"%string) 3
     = Raise (ValueError_length 1 2).
Proof.
  cbv zeta. repeat split; try (vm_compute; reflexivity).
  eexists. split; [vm_compute; reflexivity|].
  split; vm_compute; reflexivity.
Qed.

(* ================================================================== *)
(** * Labels follow the scores *)
(* ================================================================== *)

(** Whenever the call returns, the label column is the labeler applied to
    the score column, row by row. *)
Lemma labels_follow_scores df nc sel t e :
  engine (update_analysis (Some df) (Some nc) (Some sel) t) = Ok e ->
  labels e = series_apply (anomaly_label t) (scores e).
Proof.
  destruct (negb (has_column df sel)
            || negb (existsb (dtype_eqb (dtype_of (column df sel)))
                             [int64; float64])) eqn:Hguard.
  - rewrite (update_analysis_rejected df (Some nc) sel t Hguard).
    intros [= <-]. reflexivity.
  - apply orb_false_elim in Hguard. destruct Hguard as [Hhas Hdt].
    apply negb_false_iff in Hhas. apply negb_false_iff in Hdt.
    destruct (Nat.eq_dec
                (List.length (zscore (to_floats (dropna (column df sel)))))
                (List.length (df_index df))) as [Hlen|Hlen].
    + destruct (engine_cases df nc sel t Hhas Hdt Hlen) as [-> | ->];
        [discriminate|].
      intros [= <-]. reflexivity.
    + rewrite (update_analysis_raises df nc sel t Hhas Hdt Hlen).
      discriminate.
Qed.

Lemma label_at df nc sel t e i z :
  engine (update_analysis (Some df) (Some nc) (Some sel) t) = Ok e ->
  nth_error (to_floats (scores e)) i = Some z ->
  nth_error (cells (labels e)) i = Some (CStr (anomaly_label t z)).
Proof.
  intros He Hz. rewrite (labels_follow_scores df nc sel t e He).
  unfold series_apply. cbn [cells].
  now rewrite map_map, nth_error_map, Hz.
Qed.

(** C4, as the code has it.  With a threshold of at most zero, every row
    whose score is a number other than zero is Abnormal, and so is a row
    of score zero when the threshold is negative; at a threshold that is
    not negative a row of score zero stays Normal. *)
Theorem nonpositive_threshold
    (df : DataFrame) (nc : list string) (sel : string) (t : float)
    (e : Engine) (i : nat) (z : float) :
  engine (update_analysis (Some df) (Some nc) (Some sel) t) = Ok e ->
  nth_error (to_floats (scores e)) i = Some z ->
  (z =? z) = true ->
  (t <=? 0) = true ->
  ((t <? 0) = true \/ (z =? 0) = false ->
   nth_error (cells (labels e)) i = Some (CStr "Abnormal"))
  /\ ((t <? 0) = false -> (z =? 0) = true ->
      nth_error (cells (labels e)) i = Some (CStr "Normal")).
Proof.
  intros He Hz Hnum Ht.
  rewrite (label_at df nc sel t e i z He Hz). unfold anomaly_label.
  split.
  - intros [Hneg|Hnz].
    + now rewrite (abs_above_negative t z Hnum Hneg).
    + now rewrite (abs_above_nonpositive t z Hnum Hnz Ht).
  - intros Hneg Hzero. now rewrite (abs_zero_not_above t z Hzero Hneg).
Qed.

Lemma nonpositive_threshold_witness :
  exists e : Engine,
    engine (update_analysis (Some centred) (Some ["x"%string])
                            (Some "x"%string) 0) = Ok e
    /\ nth_error (cells (labels e)) 0 = Some (CStr "Abnormal")
    /\ nth_error (cells (labels e)) 1 = Some (CStr "Normal").
Proof.
  destruct (engine (update_analysis (Some centred) (Some ["x"%string])
                                    (Some "x"%string) 0))
    as [e|x] eqn:He; [|vm_compute in He; discriminate].
  exists e. split; [reflexivity|]. split.
  - refine (proj1 (nonpositive_threshold centred ["x"%string] "x"%string 0
                     e 0 (-1.2247448713915889) He _ _ _) _).
    + vm_compute in He. injection He as <-. reflexivity.
    + reflexivity.
    + reflexivity.
    + right. reflexivity.
  - refine (proj2 (nonpositive_threshold centred ["x"%string] "x"%string 0
                     e 1 0 He _ _ _) _ _).
    + vm_compute in He. injection He as <-. reflexivity.
    + reflexivity.
    + reflexivity.
    + reflexivity.
    + reflexivity.
Defined.

(** C4, as the spec states it: at the threshold 0 the middle row of
    1, 2, 3 has a score of 0 and is Normal though its value is present. *)
Lemma zero_threshold_keeps_normal_row :
  exists e : Engine,
    engine (update_analysis (Some centred) (Some ["x"%string])
                            (Some "x"%string) 0) = Ok e
    /\ scores e = Float64 [-1.2247448713915889; 0; 1.2247448713915889]
    /\ labels e = Object ["Abnormal"; "Normal"; "Abnormal"]%string.
Proof.
  eexists. split; [vm_compute; reflexivity|].
  split; vm_compute; reflexivity.
Qed.

(* ================================================================== *)
(** * Missing entries *)
(* ================================================================== *)

Lemma filter_drops {A : Type} (p : A -> bool) (l : list A) :
  existsb p l = true ->
  List.length (filter (fun v => negb (p v)) l) < List.length l.
Proof.
  induction l as [|x l IH]; simpl; [discriminate|].
  destruct (p x) eqn:Hp; simpl.
  - intros _.
    pose proof (filter_length_le (fun v => negb (p v)) l). lia.
  - intros H. specialize (IH H). lia.
Qed.

(** C5 on the code.  When the selected [float64] column has a missing
    entry, [dropna] shortens the sample, the array of scores is shorter
    than the frame, and the assignment of line 425 raises: the call does
    not complete and no row receives an output. *)
Theorem missing_entries_raise
    (df : DataFrame) (nc : list string) (sel : string) (t : float)
    (vs : list float) :
  well_formed df ->
  get_column df sel = Some (Float64 vs) ->
  existsb is_nan vs = true ->
  update_analysis (Some df) (Some nc) (Some sel) t
  = Raise (ValueError_length
             (List.length (filter (fun v => negb (is_nan v)) vs))
             (List.length (df_index df)))
  /\ List.length (filter (fun v => negb (is_nan v)) vs)
     < List.length (df_index df).
Proof.
  intros Hwf Hcol Hnan.
  assert (Hc : column df sel = Float64 vs) by (unfold column; now rewrite Hcol).
  assert (Hh : has_column df sel = true)
    by (unfold has_column; now rewrite Hcol).
  assert (Hlen : List.length vs = List.length (df_index df))
    by (rewrite <- (column_length df sel Hwf Hh); now rewrite Hc).
  pose proof (filter_drops is_nan vs Hnan) as Hlt.
  split; [|lia].
  rewrite (update_analysis_raises df nc sel t Hh).
  - rewrite Hc. cbn [dropna to_floats]. now rewrite zscore_length.
  - now rewrite Hc.
  - rewrite Hc. cbn [dropna to_floats]. rewrite zscore_length. lia.
Qed.

Lemma missing_entries_raise_witness :
  update_analysis (Some with_gap) (Some ["x"%string]) (Some "x"%string) 3
  = Raise (ValueError_length 2 3).
Proof.
  refine (proj1 (missing_entries_raise with_gap ["x"%string] "x"%string 3
                   [1; nan; 3] _ eq_refl eq_refl)).
  repeat constructor.
Defined.

(* ================================================================== *)
(** * Risk tiers *)
(* ================================================================== *)

(** C6.  With no anomalies at all the tier is Low; otherwise, with
    [ratio = count / total] as Python divides two integers (the exact
    quotient rounded once, which Python computes as long as it lies
    within the binary64 range), the tier is High when [ratio > 0.5],
    Medium when [0.2 < ratio <= 0.5] and Low when [ratio <= 0.2].  The
    four examples of the spec are instances. *)
Theorem classify_risk_tiers (count total : Z) :
  (total = 0%Z -> classify_risk count total = "Low"%string)
  /\ (total <> 0%Z ->
      (Z.abs count <= 2 ^ 1023 * Z.abs total)%Z ->
      let ratio := int_truediv count total in
      ((ratio >? 0.5) = true -> classify_risk count total = "High"%string)
      /\ ((ratio >? 0.2) = true -> (ratio <=? 0.5) = true ->
          classify_risk count total = "Medium"%string)
      /\ ((ratio <=? 0.2) = true ->
          classify_risk count total = "Low"%string))
  /\ classify_risk 0 0 = "Low"%string
  /\ classify_risk 5 10 = "Medium"%string
  /\ classify_risk 6 10 = "High"%string
  /\ classify_risk 2 10 = "Low"%string.
Proof.
  split; [|split].
  - intros ->. reflexivity.
  - intros Hne _ ratio. unfold classify_risk.
    apply Z.eqb_neq in Hne. rewrite Hne. fold ratio.
    repeat split.
    + now intros ->.
    + intros Hlow Hhigh.
      now rewrite (leb_not_ltb ratio 0.5 Hhigh), Hlow.
    + intros Hlow.
      now rewrite (fifth_not_above_half ratio Hlow),
                  (leb_not_ltb ratio 0.2 Hlow).
  - repeat split; vm_compute; reflexivity.
Qed.

(** The quotient is rounded once: beyond 2^53, where the two integers are
    not binary64 numbers themselves, 2^53 + 2 out of 2^54 + 2 gives the
    ratio 0.5 and the tier Medium, though the exact ratio is above one
    half. *)
Example large_counts_round_once :
  int_truediv (2 ^ 53 + 2) (2 ^ 54 + 2) = 0.5
  /\ of_Z (2 ^ 53 + 2) / of_Z (2 ^ 54 + 2) = 0.50000000000000011
  /\ classify_risk (2 ^ 53 + 2) (2 ^ 54 + 2) = "Medium"%string.
Proof. repeat split; vm_compute; reflexivity. Qed.

(** For counts up to 100 the binary64 ratio sorts a count into the tier of
    the exact ratio: the rounding of [count / total] and of 0.2 does not
    move a boundary. *)
Lemma risk_agrees_100 :
  forallb (fun t => forallb (risk_agrees t) (seq 0 (S t))) (seq 0 101) = true.
Proof. vm_compute. reflexivity. Qed.

(** X14.  For every count out of a total of at most 100 the tier is the
    one of the exact ratio: High above one half, Medium above one fifth
    and up to one half, Low otherwise; the rounding of the quotient and of
    the constant 0.2 moves no count across a boundary. *)
Lemma classify_risk_exact (c t : nat) :
  (c <= t)%nat -> (t <= 100)%nat ->
  classify_risk (Z.of_nat c) (Z.of_nat t)
  = exact_risk (Z.of_nat c) (Z.of_nat t).
Proof.
  intros Hc Ht.
  pose proof (proj1 (forallb_forall _ _) risk_agrees_100 t) as H.
  assert (Hin : In t (seq 0 101)) by (apply in_seq; lia).
  pose proof (proj1 (forallb_forall _ _) (H Hin) c) as H2.
  apply String.eqb_eq. apply H2. apply in_seq; lia.
Qed.

Lemma classify_risk_exact_witness :
  classify_risk 1 5 = exact_risk 1 5.
Proof.
  apply (classify_risk_exact 1 5); lia.
Defined.

Lemma classify_risk_tiers_witness :
  classify_risk 3 10 = "Medium"%string.
Proof.
  refine (proj1 (proj2 (proj1 (proj2 (classify_risk_tiers 3 10)) _ _)) _ _);
    [discriminate | vm_compute; discriminate | reflexivity | reflexivity].
Defined.

(* ================================================================== *)
(** * Order of the summary table *)
(* ================================================================== *)

Lemma report_rows_order (attack_counts : list (string * Z)) (total : Z) :
  map attack_type (report_rows attack_counts total)
  = map fst (filter (fun c => (0 <? snd c)%Z) attack_counts).
Proof.
  induction attack_counts as [|[attack n] rest IH]; simpl; auto.
  destruct (0 <? n)%Z; simpl; congruence.
Qed.

Lemma report_rows_counts (attack_counts : list (string * Z)) (total : Z) :
  map count (report_rows attack_counts total)
  = map snd (filter (fun c => (0 <? snd c)%Z) attack_counts).
Proof.
  induction attack_counts as [|[attack n] rest IH]; simpl; auto.
  destruct (0 <? n)%Z; simpl; congruence.
Qed.

Section SummaryOrder.

Variable rng : Type.
Variable seed : Z -> rng.
Variable poisson : float -> rng -> Z * rng.

Lemma draw_counts_keys attacks total_attacks total_anomalies g :
  map fst (fst (draw_counts rng poisson attacks total_attacks
                            total_anomalies g)) = attacks.
Proof.
  revert g. induction attacks as [|attack rest IH]; intros g; simpl; auto.
  destruct (poisson _ g) as [base_count g1].
  destruct (String.eqb attack "DDoS").
  - destruct (poisson _ g1) as [extra g2].
    specialize (IH g2).
    destruct (draw_counts rng poisson rest total_attacks total_anomalies g2).
    simpl in *. now rewrite IH.
  - specialize (IH g1).
    destruct (draw_counts rng poisson rest total_attacks total_anomalies g1).
    simpl in *. now rewrite IH.
Qed.

(** The summary table is the list of report rows of the drawn counts. *)
Lemma summary_table_rows js clock_iso clock_text g :
  attack_summary_table
    (fst (generate_smart_report rng seed poisson (Some js)
                                clock_iso clock_text g))
  = report_rows
      (fst (draw_counts rng poisson attack_types
              (Z.max 1 (Z.max (Z.of_nat (List.length (js_index js))) 0 / 3))
              (Z.max (Z.of_nat (List.length (js_index js))) 0)
              (seed (42 + Z.max (Z.of_nat (List.length (js_index js))) 0)%Z)))
      (Z.max (Z.of_nat (List.length (js_index js))) 0).
Proof.
  unfold generate_smart_report.
  destruct (draw_counts rng poisson attack_types _ _ _) as [counts g'].
  cbn [fst]. destruct (report_rows counts _); reflexivity.
Qed.

End SummaryOrder.

(** C7, as the code has it.  Whatever counts are drawn, the rows of the
    summary table stand in the fixed order of the list of attack types
    (DDoS, DoS, Port Scan, Brute Force, Botnet, Web Attacks), the types of
    count zero left out; the table is not sorted by count. *)
Theorem summary_in_attack_order
    (rng : Type) (seed : Z -> rng) (poisson : float -> rng -> Z * rng)
    (js : SplitJson) (clock_iso clock_text : string) (g : rng) :
  exists attack_counts : list (string * Z),
    map fst attack_counts = attack_types
    /\ attack_summary_table
         (fst (generate_smart_report rng seed poisson (Some js)
                                     clock_iso clock_text g))
       = report_rows attack_counts
                     (Z.of_nat (List.length (js_index js)))
    /\ map attack_type
         (attack_summary_table
            (fst (generate_smart_report rng seed poisson (Some js)
                                        clock_iso clock_text g)))
       = map fst (filter (fun c => (0 <? snd c)%Z) attack_counts).
Proof.
  rewrite summary_table_rows.
  replace (Z.max (Z.of_nat (List.length (js_index js))) 0)
    with (Z.of_nat (List.length (js_index js))) by lia.
  eexists. split; [apply draw_counts_keys|].
  split; [reflexivity|apply report_rows_order].
Qed.

(** The whole callback on a generator that replays the draws 1 (+3 for
    DDoS), 1, 3, 0, 2, 3 for thirty anomalous rows. *)
Lemma replayed_report_order :
  map (fun r => (attack_type r, count r))
      (attack_summary_table
         (fst (generate_smart_report (list Z)
                 (replay_seed [1; 3; 1; 3; 0; 2; 3]%Z) replay_poisson
                 (Some (mkSplitJson [] (seq 0 30) []))
                 "" "" [])))
  = [("DDoS", 4); ("DoS", 1); ("Port Scan", 3); ("Botnet", 2);
     ("Web Attacks", 3)]%string%Z.
Proof. vm_compute. reflexivity. Qed.

(** C7, as the spec states it: rows of counts 4, 1, 3, 2, 3 come out in
    that order, and the categories C: 1, A: 3, B: 3 come out as C, A, B. *)
Lemma summary_keeps_insertion_order :
  map attack_type (report_rows drawn_counts 30)
  = ["DDoS"; "DoS"; "Port Scan"; "Botnet"; "Web Attacks"]%string
  /\ map count (report_rows drawn_counts 30) = [4; 1; 3; 2; 3]%Z
  /\ sorted_by_count (report_rows drawn_counts 30) = false
  /\ map attack_type (report_rows abc_counts 7) = ["C"; "A"; "B"]%string
  /\ sorted_by_count (report_rows abc_counts 7) = false.
Proof. repeat split; vm_compute; reflexivity. Qed.

(* ================================================================== *)
(** * Axes of the scatter plot *)
(* ================================================================== *)

Lemma filter_others_nil (numeric_cols : list string) (sel : string) :
  (forall col, In col numeric_cols -> col = sel) ->
  filter (fun col => negb (String.eqb col sel)) numeric_cols = [].
Proof.
  induction numeric_cols as [|c rest IH]; simpl; auto.
  intros H. rewrite (H c (or_introl eq_refl)), String.eqb_refl. simpl.
  apply IH. intros col Hin. apply H. now right.
Qed.

(** Another numeric column is present: the first one is the second axis,
    and it differs from the selected column. *)
Lemma scatter_axes_other (df : DataFrame) (numeric_cols : list string)
    (sel other : string) (rest : list string) :
  filter (fun col => negb (String.eqb col sel)) numeric_cols = other :: rest ->
  scatter_axes df numeric_cols sel = (df, sel, other) /\ other <> sel.
Proof.
  intros Hf. unfold scatter_axes. rewrite Hf.
  assert (Hin : In other (filter (fun col => negb (String.eqb col sel))
                                 numeric_cols))
    by (rewrite Hf; now left).
  apply filter_In in Hin. destruct Hin as [_ Hne].
  apply negb_true_iff in Hne.
  rewrite String.eqb_sym, Hne. split; [reflexivity|].
  now apply String.eqb_neq.
Qed.

(** No other numeric column: the second axis is the [index] column, which
    holds the row positions. *)
Lemma scatter_axes_alone (df : DataFrame) (numeric_cols : list string)
    (sel : string) :
  (forall col, In col numeric_cols -> col = sel) ->
  scatter_axes df numeric_cols sel
  = (set_column df "index" (index_series df), sel, "index"%string).
Proof.
  intros H. unfold scatter_axes.
  now rewrite (filter_others_nil numeric_cols sel H), String.eqb_refl.
Qed.

(** Unless the selected column is called [index], the two axes differ. *)
Lemma scatter_axes_distinct (df : DataFrame) (numeric_cols : list string)
    (sel : string) :
  sel <> "index"%string ->
  snd (fst (scatter_axes df numeric_cols sel))
  <> snd (scatter_axes df numeric_cols sel).
Proof.
  intros Hne. unfold scatter_axes.
  destruct (filter _ numeric_cols) as [|other rest] eqn:Hf.
  - rewrite String.eqb_refl. exact Hne.
  - destruct (String.eqb sel other) eqn:E; cbn [fst snd]; [exact Hne|].
    now apply String.eqb_neq.
Qed.

(** The axes of a call that scores are those of lines 430-435. *)
(** The names of the axes do not depend on the frame. *)
Lemma scatter_axes_names df df' nc sel :
  snd (fst (scatter_axes df nc sel)) = snd (fst (scatter_axes df' nc sel))
  /\ snd (scatter_axes df nc sel) = snd (scatter_axes df' nc sel).
Proof.
  unfold scatter_axes. destruct (String.eqb sel _); split; reflexivity.
Qed.

Lemma axes_scored df nc sel t :
  has_column df sel = true ->
  existsb (dtype_eqb (dtype_of (column df sel))) [int64; float64] = true ->
  List.length (zscore (to_floats (dropna (column df sel))))
  = List.length (df_index df) ->
  Forall (fun col => has_column df col = true) nc ->
  axes_of (update_analysis (Some df) (Some nc) (Some sel) t)
  = Some (snd (fst (scatter_axes df nc sel)), snd (scatter_axes df nc sel)).
Proof.
  intros Hhas Hdt Hlen Hnc.
  rewrite (update_analysis_scored df nc sel t Hhas Hdt Hlen). cbv zeta.
  rewrite (plots_accepted_columns df nc sel _ _ Hhas Hnc).
  cbn [axes_of scatter_figure].
  set (labelled := set_column _ _ _).
  destruct (scatter_axes_names labelled df nc sel) as [-> ->].
  reflexivity.
Qed.

(** C8 on the code.  When the selected column is itself called [index] and
    no other numeric column exists, the fallback of lines 433-435 writes
    the row positions over that column and names it as the second axis
    too: the plot has the column [index] on both axes. *)
Theorem index_column_on_both_axes
    (df : DataFrame) (numeric_cols : list string) (t : float) :
  well_formed df ->
  has_column df "index" = true ->
  existsb (dtype_eqb (dtype_of (column df "index"))) [int64; float64] = true ->
  dropna (column df "index") = column df "index" ->
  (forall col, In col numeric_cols -> col = "index"%string) ->
  axes_of (update_analysis (Some df) (Some numeric_cols)
                           (Some "index"%string) t)
  = Some ("index"%string, "index"%string)
  /\ fst (fst (scatter_axes df numeric_cols "index"))
     = set_column df "index" (index_series df).
Proof.
  intros Hwf Hhas Hdt Hdrop Honly.
  rewrite axes_scored; auto using scored_length.
  2: { apply Forall_forall. intros col Hc. now rewrite (Honly col Hc). }
  unfold scatter_axes.
  rewrite (filter_others_nil numeric_cols "index" Honly).
  now rewrite String.eqb_refl.
Qed.

Lemma index_column_on_both_axes_witness :
  axes_of (update_analysis (Some indexed) (Some ["index"%string])
                           (Some "index"%string) 3)
  = Some ("index"%string, "index"%string)
  /\ fst (fst (scatter_axes indexed ["index"%string] "index"))
     = mkDataFrame [0; 1; 2]%nat
         [("index"%string, Int64 [0; 1; 2]%Z);
          ("name"%string, Object ["a"; "b"; "c"]%string)].
Proof.
  apply (index_column_on_both_axes indexed ["index"%string] 3);
    try reflexivity.
  - repeat constructor.
  - intros col [<-|[]]. reflexivity.
Defined.

(* ================================================================== *)
(** * Determinism *)
(* ================================================================== *)



(** A name that is not a column stops the call in plotly, after the rows
    have been scored. *)
Example unknown_column_stops_the_call :
  update_analysis (Some scenario) (Some ["x"; "w"]%string)
                  (Some "x"%string) 1.5
  = Raise ValueError_column.
Proof. vm_compute. reflexivity. Qed.

(** The report reseeds the generator from the number of anomalies, so its
    data do not depend on the state the generator was in, and only the
    time stamps depend on the clock. *)
Lemma report_ignores_generator_state
    (rng : Type) (seed : Z -> rng) (poisson : float -> rng -> Z * rng)
    (anomalous_json : option SplitJson) (clock_iso clock_text : string)
    (g g' : rng) :
  fst (generate_smart_report rng seed poisson anomalous_json
                             clock_iso clock_text g)
  = fst (generate_smart_report rng seed poisson anomalous_json
                               clock_iso clock_text g').
Proof.
  destruct anomalous_json as [js|]; reflexivity.
Qed.

(* ================================================================== *)
(** * Rejected selections *)
(* ================================================================== *)

(** C10.  When the selected feature is not a column of the data set, or
    its column is neither [int64] nor [float64], the callback returns the
    placeholder outputs: the placeholder figure, no histogram, an empty
    table without columns, the count "0" and no stored data.  It neither
    raises nor scores. *)
Theorem invalid_selection_placeholder
    (df : DataFrame) (numeric_cols : option (list string)) (sel : string)
    (t : float) :
  has_column df sel = false
  \/ (dtype_of (column df sel) <> int64
      /\ dtype_of (column df sel) <> float64) ->
  update_analysis (Some df) numeric_cols (Some sel) t
  = Ok (mkOutputs _empty_fig [] [] [] "0" None).
Proof.
  intros H. apply update_analysis_rejected.
  destruct H as [-> | [Hi Hf]]; [reflexivity|].
  destruct (dtype_of (column df sel)); simpl; try congruence;
    apply orb_true_r.
Qed.

Lemma invalid_selection_placeholder_witness :
  update_analysis (Some indexed) (Some ["index"%string]) (Some "name"%string) 3
  = Ok (mkOutputs _empty_fig [] [] [] "0" None)
  /\ update_analysis (Some indexed) (Some ["index"%string])
                     (Some "size"%string) 3
     = Ok (mkOutputs _empty_fig [] [] [] "0" None).
Proof.
  split.
  - apply (invalid_selection_placeholder indexed (Some ["index"%string])
             "name"%string 3).
    right. split; discriminate.
  - apply (invalid_selection_placeholder indexed (Some ["index"%string])
             "size"%string 3).
    left. reflexivity.
Defined.

(* ================================================================== *)
(** * What [update_analysis] plots and reports *)
(* ================================================================== *)

Ltac zcmp :=
  repeat match goal with
  | |- context [(?a ?= ?b)%Z] => destruct (Z.compare_spec a b)
  | H : context [(?a ?= ?b)%Z] |- _ => destruct (Z.compare_spec a b)
  | |- context [Pos.compare_cont Eq ?a ?b] =>
      change (Pos.compare_cont Eq a b) with (Pos.compare a b);
      destruct (Pos.compare_spec a b)
  | H : context [Pos.compare_cont Eq ?a ?b] |- _ =>
      change (Pos.compare_cont Eq a b) with (Pos.compare a b) in H;
      destruct (Pos.compare_spec a b)
  end.

Lemma SFleb_ltb_trans (x y z : spec_float) :
  SFleb x y = true -> SFltb y z = true -> SFltb x z = true.
Proof.
  unfold SFleb, SFltb.
  destruct x as [[|]|[|]| |[|] mx ex], y as [[|]|[|]| |[|] my ey],
           z as [[|]|[|]| |[|] mz ez]; cbn [SFcompare]; try congruence.
  all: zcmp; cbn [CompOpp]; subst; try congruence; try lia.
Qed.

Lemma above_monotone (t1 t2 a : float) :
  (t1 <=? t2) = true -> (t2 <? a) = true -> (t1 <? a) = true.
Proof.
  rewrite leb_spec, !ltb_spec. apply SFleb_ltb_trans.
Qed.

Lemma abs_opp (z : float) : abs (- z) = abs z.
Proof.
  apply Prim2SF_inj. rewrite !abs_spec, opp_spec.
  destruct (Prim2SF z); reflexivity.
Qed.

(** What a call that returns has computed. *)
Lemma update_analysis_inv df nc sel t o :
  update_analysis (Some df) (Some nc) (Some sel) t = Ok o ->
  o = no_analysis
  \/ (has_column df sel = true
      /\ List.length (zscore (to_floats (dropna (column df sel))))
         = List.length (df_index df)
      /\ let zs := zscore (to_floats (dropna (column df sel))) in
         let labelled :=
           set_column (set_column df "z_score" (Float64 zs)) "anomaly_label"
                      (Object (map (anomaly_label t) zs)) in
         let frame := fst (fst (scatter_axes labelled nc sel)) in
         let x := snd (fst (scatter_axes labelled nc sel)) in
         let y := snd (scatter_axes labelled nc sel) in
         o = mkOutputs
               (ScatterFig frame x y "anomaly_label" [x; y; "z_score"%string])
               (map (fun col => HistogramFig frame col "anomaly_label") nc)
               (to_records (anomalous_rows frame))
               (["index"%string] ++ nc ++ ["z_score"%string])
               (str (List.length (df_index (anomalous_rows frame))))
               (Some (to_json_split (anomalous_rows frame)))).
Proof.
  destruct (negb (has_column df sel)
            || negb (existsb (dtype_eqb (dtype_of (column df sel)))
                             [int64; float64])) eqn:Hguard.
  { rewrite (update_analysis_rejected df (Some nc) sel t Hguard).
    intros [= <-]. now left. }
  apply orb_false_elim in Hguard. destruct Hguard as [Hhas Hdt].
  apply negb_false_iff in Hhas. apply negb_false_iff in Hdt.
  destruct (Nat.eq_dec
              (List.length (zscore (to_floats (dropna (column df sel)))))
              (List.length (df_index df))) as [Hlen|Hlen].
  - rewrite (update_analysis_scored df nc sel t Hhas Hdt Hlen). cbv zeta.
    destruct (plots_accepted _ _ _ nc); [|discriminate].
    intros [= <-]. right. repeat split; auto.
  - rewrite (update_analysis_raises df nc sel t Hhas Hdt Hlen).
    discriminate.
Qed.

Lemma get_column_set_other df k k' s :
  k <> k' -> get_column (set_column df k s) k' = get_column df k'.
Proof. intros H. unfold get_column, set_column. cbn. now apply lookup_store_other. Qed.

Lemma lookup_select mask cols name :
  lookup (map (fun c : string * Series => (fst c, select_series mask (snd c))) cols) name
  = option_map (select_series mask) (lookup cols name).
Proof.
  induction cols as [|[k s] cols IH]; simpl; auto.
  destruct (String.eqb k name); auto.
Qed.

Lemma has_column_select mask df name :
  has_column (select_rows mask df) name = has_column df name.
Proof.
  unfold has_column, get_column, select_rows. cbn [df_columns].
  rewrite lookup_select. now destruct (lookup (df_columns df) name).
Qed.

Lemma has_column_anomalous frame name :
  has_column (anomalous_rows frame) name
  = has_column frame name || String.eqb "index" name || String.eqb "z_score" name.
Proof.
  unfold anomalous_rows. now rewrite !has_column_set, has_column_select.
Qed.

(** X4.  When every name of [numeric_cols] is a column of the data, each
    column the call hands to a plot or to the table is there: both axes,
    the colour column and the hover columns of the scatter plot and the
    column of every histogram are columns of the plotted frame, and every
    column of the table of anomalies is a column of the stored anomalous
    rows. *)
Theorem plotted_columns_exist (df : DataFrame) (nc : list string)
    (sel : string) (t : float) (o : Outputs) :
  update_analysis (Some df) (Some nc) (Some sel) t = Ok o ->
  Forall (fun col => has_column df col = true) nc ->
  o = no_analysis
  \/ exists frame x y,
       scatter_figure o
       = ScatterFig frame x y "anomaly_label" [x; y; "z_score"%string]
       /\ histogram_plots o
          = map (fun col => HistogramFig frame col "anomaly_label") nc
       /\ Forall (fun col => has_column frame col = true)
                 ([x; y; "anomaly_label"; "z_score"]%string ++ nc)
       /\ Forall (fun col => has_column (anomalous_rows frame) col = true)
                 (table_columns o)
       /\ anomalous_data_store o = Some (to_json_split (anomalous_rows frame)).
Proof.
  intros Hrun Hnc. apply update_analysis_inv in Hrun.
  destruct Hrun as [->|(Hhas & Hlen & Ho)]; [now left|right].
  cbv zeta in Ho.
  set (zs := zscore _) in *.
  set (labelled := set_column (set_column df "z_score" (Float64 zs)) _ _) in *.
  assert (Hlab : forall col, has_column df col = true ->
                             has_column labelled col = true).
  { intros col H. unfold labelled. rewrite !has_column_set, H. reflexivity. }
  assert (Hfr : forall col, has_column labelled col = true ->
                has_column (fst (fst (scatter_axes labelled nc sel))) col = true).
  { intros col H. destruct (scatter_frame_cases labelled nc sel) as [->|[-> _]];
      [exact H|]. rewrite has_column_set, H. reflexivity. }
  exists (fst (fst (scatter_axes labelled nc sel))),
         (snd (fst (scatter_axes labelled nc sel))),
         (snd (scatter_axes labelled nc sel)).
  subst o. cbn [scatter_figure histogram_plots table_columns anomalous_data_store].
  repeat split.
  - repeat apply Forall_cons.
    + apply Hfr. unfold scatter_axes.
      destruct (String.eqb sel _); cbn [fst snd]; auto.
    + unfold scatter_axes.
      destruct (filter _ nc) as [|other rest] eqn:Hf.
      * rewrite String.eqb_refl. cbn [fst snd].
        rewrite has_column_set, String.eqb_refl. apply orb_true_r.
      * destruct (String.eqb sel other) eqn:E; cbn [fst snd].
        -- rewrite has_column_set, String.eqb_refl. apply orb_true_r.
        -- apply Hlab. rewrite Forall_forall in Hnc. apply Hnc.
           now apply filter_first_in in Hf.
    + apply Hfr. unfold labelled. rewrite has_column_set, String.eqb_refl.
      apply orb_true_r.
    + apply Hfr. unfold labelled. rewrite !has_column_set, String.eqb_refl.
      rewrite orb_true_r. reflexivity.
    + rewrite Forall_forall in *. intros col Hc. auto.
  - rewrite Forall_forall in *. intros col Hc.
    rewrite has_column_anomalous.
    cbn [app] in Hc. destruct Hc as [<-|Hc].
    + rewrite String.eqb_refl. now rewrite orb_true_r.
    + apply in_app_or in Hc. destruct Hc as [Hc|[<-|[]]].
      * rewrite (Hfr col (Hlab col (Hnc col Hc))). reflexivity.
      * rewrite String.eqb_refl. apply orb_true_r.
Qed.

Lemma well_formed_set df k s :
  well_formed df -> series_length s = List.length (df_index df) ->
  well_formed (set_column df k s).
Proof.
  unfold well_formed, set_column. cbn [df_index df_columns].
  intros Hwf Hs. induction Hwf as [|[k0 s0] cols H0 Hwf IH]; simpl.
  - constructor; [exact Hs|constructor].
  - destruct (String.eqb k0 k); constructor; auto.
Qed.

(** X5.  Scoring adds columns and changes no data: the plotted frame has
    the rows of the data, every column other than [z_score],
    [anomaly_label] and [index] is exactly the column of the data, and the
    frame still has one entry per row in every column. *)
Theorem data_columns_untouched (df : DataFrame) (nc : list string)
    (sel : string) (t : float) (o : Outputs) (frame : DataFrame)
    (x y c : string) (h : list string) :
  update_analysis (Some df) (Some nc) (Some sel) t = Ok o ->
  scatter_figure o = ScatterFig frame x y c h ->
  df_index frame = df_index df
  /\ (forall name,
        name <> "z_score"%string -> name <> "anomaly_label"%string ->
        name <> "index"%string ->
        get_column frame name = get_column df name)
  /\ (well_formed df -> well_formed frame).
Proof.
  intros Hrun Hfig. apply update_analysis_inv in Hrun.
  destruct Hrun as [->|(Hhas & Hlen & Ho)]; [discriminate Hfig|].
  cbv zeta in Ho. subst o. cbn [scatter_figure] in Hfig.
  injection Hfig as <- _ _ _ _.
  set (zs := zscore _) in *.
  set (labelled := set_column (set_column df "z_score" (Float64 zs)) _ _).
  assert (Hwf : well_formed df -> well_formed labelled).
  { intros H. unfold labelled. apply well_formed_set; [apply well_formed_set|]; auto.
    cbn. now rewrite length_map. }
  destruct (scatter_frame_cases labelled nc sel) as [->|[-> _]].
  - repeat split; auto. intros name H1 H2 H3. unfold labelled.
    rewrite !get_column_set_other; auto.
  - repeat split.
    + intros name H1 H2 H3. unfold labelled.
      rewrite !get_column_set_other; auto.
    + intros H. apply well_formed_set; auto. cbn. now rewrite length_map.
Qed.

Lemma In_select {A} (mask : list bool) (l : list A) (x : A) :
  In x (select mask l)
  <-> exists k, nth_error mask k = Some true /\ nth_error l k = Some x.
Proof.
  revert l. induction mask as [|b mask IH]; intros [|y l]; simpl.
  1-3: split; [intros [] | intros (k & H1 & H2); destruct k; simpl in *; discriminate].
  destruct b; simpl; rewrite ?IH; split.
  - intros [->|(k & H1 & H2)]; [exists 0%nat; auto | exists (S k); auto].
  - intros ([|k] & H1 & H2); simpl in *; [left; congruence | right; eauto].
  - intros (k & H1 & H2). exists (S k); auto.
  - intros ([|k] & H1 & H2); simpl in *; [discriminate | eauto].
Qed.

Lemma select_length_le {A B} (m1 m2 : list bool) (l : list A) (l' : list B) :
  List.length l = List.length l' ->
  (forall k, nth_error m2 k = Some true -> nth_error m1 k = Some true) ->
  (List.length (select m2 l) <= List.length (select m1 l'))%nat.
Proof.
  revert m1 l l'. induction m2 as [|b2 m2 IH]; intros m1 l l' Hlen Himp.
  - simpl. lia.
  - destruct l as [|y l], l' as [|y' l']; try discriminate; [simpl; lia|].
    destruct m1 as [|b1 m1].
    + destruct b2; [specialize (Himp 0%nat eq_refl); discriminate|].
      simpl. transitivity (List.length (select [] l')); [|simpl; lia].
      apply IH; [simpl in Hlen; lia|].
      intros k Hk. specialize (Himp (S k) Hk). destruct k; discriminate.
    + assert (Htl : forall k, nth_error m2 k = Some true ->
                              nth_error m1 k = Some true)
        by (intros k Hk; exact (Himp (S k) Hk)).
      assert (IH' := IH m1 l l' ltac:(simpl in Hlen; lia) Htl).
      destruct b2, b1; simpl; try lia.
      specialize (Himp 0%nat eq_refl). discriminate.
Qed.

Lemma abnormal_mask (t : float) (zs : list float) (k : nat) :
  nth_error (map (fun x => String.eqb x "Abnormal")
                 (map (anomaly_label t) zs)) k = Some true
  <-> exists z, nth_error zs k = Some z /\ (t <? abs z) = true.
Proof.
  rewrite map_map, nth_error_map.
  destruct (nth_error zs k) as [z|]; cbn [option_map].
  - unfold anomaly_label. destruct (t <? abs z) eqn:E; cbn; split.
    + intros _. exists z. split; [reflexivity|exact E].
    + reflexivity.
    + discriminate.
    + intros (z' & [= <-] & H). congruence.
  - split; [discriminate | intros (z & H & _); discriminate].
Qed.

Lemma engine_inv df nc sel t e :
  engine (update_analysis (Some df) (Some nc) (Some sel) t) = Ok e ->
  e = engine_of no_analysis
  \/ (List.length (zscore (to_floats (dropna (column df sel))))
      = List.length (df_index df)
      /\ let zs := zscore (to_floats (dropna (column df sel))) in
         let labelled :=
           set_column (set_column df "z_score" (Float64 zs)) "anomaly_label"
                      (Object (map (anomaly_label t) zs)) in
         e = mkEngine (Float64 zs)
               (Object (map (anomaly_label t) zs))
               (str (List.length (df_index (anomalous_rows labelled))))
               (to_records (anomalous_rows labelled))
               (Some (to_json_split (anomalous_rows labelled)))).
Proof.
  destruct (negb (has_column df sel)
            || negb (existsb (dtype_eqb (dtype_of (column df sel)))
                             [int64; float64])) eqn:Hguard.
  - rewrite (update_analysis_rejected df (Some nc) sel t Hguard).
    intros [= <-]. now left.
  - apply orb_false_elim in Hguard. destruct Hguard as [Hhas Hdt].
    apply negb_false_iff in Hhas. apply negb_false_iff in Hdt.
    destruct (Nat.eq_dec
                (List.length (zscore (to_floats (dropna (column df sel)))))
                (List.length (df_index df))) as [Hlen|Hlen].
    + destruct (engine_cases df nc sel t Hhas Hdt Hlen) as [-> | ->];
        [discriminate|].
      intros [= <-]. right. split; [exact Hlen|reflexivity].
    + rewrite (update_analysis_raises df nc sel t Hhas Hdt Hlen).
      discriminate.
Qed.

Lemma stored_index df (zs : list float) t :
  js_index (to_json_split
              (anomalous_rows
                 (set_column (set_column df "z_score" (Float64 zs))
                             "anomaly_label"
                             (Object (map (anomaly_label t) zs)))))
  = select (map (fun x => String.eqb x "Abnormal") (map (anomaly_label t) zs))
           (df_index df).
Proof.
  unfold anomalous_rows. rewrite column_set_same. reflexivity.
Qed.

(** X6.  The stored anomalous rows are exactly the rows whose score has a
    magnitude above the threshold (a row whose score is NaN is never
    among them), and the counter, the table and the stored records all
    have one entry per such row.  (For data with the row labels 0, 1, ...,
    as [pd.DataFrame(data)] builds them.) *)
Theorem reported_rows_exceed_threshold (df : DataFrame) (nc : list string)
    (sel : string) (t : float) (e : Engine) (store : SplitJson) :
  df_index df = seq 0 (List.length (df_index df)) ->
  engine (update_analysis (Some df) (Some nc) (Some sel) t) = Ok e ->
  anomalous_store e = Some store ->
  (forall i : nat,
      In i (js_index store)
      <-> exists z, nth_error (to_floats (scores e)) i = Some z
                    /\ (t <? abs z) = true)
  /\ anomaly_count e = str (List.length (js_index store))
  /\ List.length (anomalous_table e) = List.length (js_index store)
  /\ List.length (js_data store) = List.length (js_index store).
Proof.
  intros Hidx He Hst. apply engine_inv in He.
  destruct He as [->|(Hlen & He)]; [discriminate Hst|].
  cbv zeta in He. subst e. cbn [anomalous_store] in Hst.
  injection Hst as <-. cbn [scores anomaly_count anomalous_table to_floats].
  set (zs := zscore _) in *.
  split; [|repeat split].
  - intros i. rewrite stored_index, In_select. split.
    + intros (k & Hk & Hi). rewrite Hidx in Hi.
      assert (Hki : k = i).
      { assert (k < List.length (df_index df))%nat
          by (apply nth_error_Some; rewrite Hidx at 1; congruence).
        rewrite nth_error_nth' with (d := 0%nat) in Hi by (rewrite length_seq; lia).
        rewrite seq_nth in Hi by lia. injection Hi. lia. }
      subst k. now apply abnormal_mask.
    + intros Hz. exists i. split; [now apply abnormal_mask|].
      destruct Hz as (z & Hz & _).
      assert (i < List.length zs)%nat by (apply nth_error_Some; congruence).
      rewrite Hidx, nth_error_nth' with (d := 0%nat) by (rewrite length_seq; lia).
      rewrite seq_nth by lia. reflexivity.
  - unfold to_records. now rewrite length_map, length_seq.
  - cbn [to_json_split js_data js_index]. unfold to_records.
    now rewrite !length_map, length_seq.
Qed.

(** X7.  Moving the threshold changes no score, and raising it never
    adds an anomaly: the rows reported at the higher threshold are among
    those reported at the lower one, and are no more in number. *)
Theorem higher_threshold_reports_fewer (df : DataFrame) (nc : list string)
    (sel : string) (t1 t2 : float) (e1 e2 : Engine) (s1 s2 : SplitJson) :
  (t1 <=? t2) = true ->
  engine (update_analysis (Some df) (Some nc) (Some sel) t1) = Ok e1 ->
  engine (update_analysis (Some df) (Some nc) (Some sel) t2) = Ok e2 ->
  anomalous_store e1 = Some s1 ->
  anomalous_store e2 = Some s2 ->
  scores e1 = scores e2
  /\ incl (js_index s2) (js_index s1)
  /\ (List.length (js_index s2) <= List.length (js_index s1))%nat.
Proof.
  intros Hle He1 He2 Hs1 Hs2.
  apply engine_inv in He1. apply engine_inv in He2.
  destruct He1 as [->|(_ & He1)]; [discriminate Hs1|].
  destruct He2 as [->|(_ & He2)]; [discriminate Hs2|].
  cbv zeta in He1, He2. subst e1 e2. cbn [anomalous_store] in Hs1, Hs2.
  injection Hs1 as <-. injection Hs2 as <-.
  split; [reflexivity|].
  rewrite !stored_index.
  set (zs := zscore _).
  assert (Himp : forall k,
             nth_error (map (fun x => String.eqb x "Abnormal")
                            (map (anomaly_label t2) zs)) k = Some true ->
             nth_error (map (fun x => String.eqb x "Abnormal")
                            (map (anomaly_label t1) zs)) k = Some true).
  { intros k Hk. apply abnormal_mask in Hk. destruct Hk as (z & Hz & Habove).
    apply abnormal_mask. exists z. split; [exact Hz|].
    exact (above_monotone t1 t2 (abs z) Hle Habove). }
  split.
  - intros i Hi. apply In_select in Hi. destruct Hi as (k & Hk & Hi).
    apply In_select. exists k. auto.
  - now apply select_length_le.
Qed.

(** X8.  The label does not depend on the sign of the score: a value as
    far below the mean as another is above it gets the same label. *)
Theorem label_ignores_sign (t z : float) :
  anomaly_label t (- z) = anomaly_label t z.
Proof. unfold anomaly_label. now rewrite abs_opp. Qed.

(** X9.  When the selected column is not called [index], the scatter plot
    has the selected column on its first axis and another column on the
    second: the first name of [numeric_cols] other than the selected one,
    and when there is none the column [index], which then holds the row
    labels of the data. *)
Theorem second_axis_is_another_column (df : DataFrame) (nc : list string)
    (sel : string) (t : float) (o : Outputs) (frame : DataFrame)
    (x y c : string) (h : list string) :
  update_analysis (Some df) (Some nc) (Some sel) t = Ok o ->
  scatter_figure o = ScatterFig frame x y c h ->
  sel <> "index"%string ->
  x = sel
  /\ y <> x
  /\ (forall other rest,
        filter (fun col => negb (String.eqb col sel)) nc = other :: rest ->
        y = other)
  /\ ((forall col, In col nc -> col = sel) ->
      y = "index"%string
      /\ get_column frame "index" = Some (index_series df)).
Proof.
  intros Hrun Hfig Hsel. apply update_analysis_inv in Hrun.
  destruct Hrun as [->|(Hhas & Hlen & Ho)]; [discriminate Hfig|].
  cbv zeta in Ho. subst o. cbn [scatter_figure] in Hfig.
  injection Hfig as <- <- <- _ _.
  set (labelled := set_column (set_column df "z_score" _) _ _).
  pose proof (scatter_axes_distinct labelled nc sel Hsel) as Hdist.
  assert (Hx : snd (fst (scatter_axes labelled nc sel)) = sel).
  { unfold scatter_axes. destruct (String.eqb sel _); reflexivity. }
  repeat split.
  - exact Hx.
  - intros E. apply Hdist. now rewrite E.
  - intros other rest Hf.
    now rewrite (proj1 (scatter_axes_other labelled nc sel other rest Hf)).
  - now rewrite (scatter_axes_alone labelled nc sel H).
  - rewrite (scatter_axes_alone labelled nc sel H). cbn [fst].
    unfold get_column, set_column. cbn [df_columns].
    now rewrite lookup_store_same.
Qed.

Lemma filter_keeps {A : Type} (p : A -> bool) (l : list A) :
  existsb p l = false -> filter (fun v => negb (p v)) l = l.
Proof.
  induction l as [|x l IH]; simpl; [reflexivity|].
  destruct (p x); simpl; [discriminate|]. intros H. now rewrite IH.
Qed.

(** X3.  On data whose columns have one entry per row and which has the
    columns of [numeric_cols] (so that, as shown above, every plot is
    asked for columns that exist), the call fails in one case only: the
    selected column is a [float64] column with a missing entry.  For every
    other selection it returns, with the placeholder or with the
    scores. *)
Theorem analysis_fails_only_on_missing_entries (df : DataFrame)
    (nc : list string) (sel : string) (t : float) :
  well_formed df ->
  Forall (fun col => has_column df col = true) nc ->
  (exists e, update_analysis (Some df) (Some nc) (Some sel) t = Raise e)
  <-> (exists vs, get_column df sel = Some (Float64 vs)
                  /\ existsb is_nan vs = true).
Proof.
  intros Hwf Hnc. split.
  - intros [e He].
    destruct (negb (has_column df sel)
              || negb (existsb (dtype_eqb (dtype_of (column df sel)))
                               [int64; float64])) eqn:Hguard.
    { rewrite (update_analysis_rejected df (Some nc) sel t Hguard) in He.
      discriminate He. }
    apply orb_false_elim in Hguard. destruct Hguard as [Hhas Hdt].
    apply negb_false_iff in Hhas. apply negb_false_iff in Hdt.
    destruct (Nat.eq_dec
                (List.length (zscore (to_floats (dropna (column df sel)))))
                (List.length (df_index df))) as [Hlen|Hlen].
    { pose proof (engine_scored df nc sel t Hhas Hdt Hlen Hnc) as Hs.
      rewrite He in Hs. discriminate Hs. }
    pose proof (column_length df sel Hwf Hhas) as Hcl.
    unfold has_column in Hhas. unfold column in Hdt, Hlen, Hcl.
    destruct (get_column df sel) as [[vs|vs|vs|vs]|]; try discriminate.
    + exfalso. apply Hlen. cbn [dropna to_floats].
      rewrite zscore_length, length_map. exact Hcl.
    + exists vs. split; [reflexivity|].
      destruct (existsb is_nan vs) eqn:Hnan; [reflexivity|].
      exfalso. apply Hlen. cbn [dropna to_floats].
      rewrite (filter_keeps is_nan vs Hnan), zscore_length. exact Hcl.
  - intros (vs & Hcol & Hnan).
    assert (Hc : column df sel = Float64 vs)
      by (unfold column; now rewrite Hcol).
    assert (Hh : has_column df sel = true)
      by (unfold has_column; now rewrite Hcol).
    pose proof (column_length df sel Hwf Hh) as Hcl.
    pose proof (filter_drops is_nan vs Hnan) as Hlt.
    eexists. apply update_analysis_raises; [exact Hh | now rewrite Hc |].
    rewrite Hc in *. cbn [dropna to_floats series_length] in *.
    rewrite zscore_length. lia.
Qed.

Lemma analysis_fails_only_on_missing_entries_witness :
  (exists e,
      update_analysis (Some with_gap) (Some ["x"%string]) (Some "x"%string) 3
      = Raise e)
  <-> (exists vs, get_column with_gap "x" = Some (Float64 vs)
                  /\ existsb is_nan vs = true).
Proof.
  apply analysis_fails_only_on_missing_entries; repeat constructor.
Defined.

(** The scenario of the spec, analysed: the call returns and plots. *)
Ltac analysed E F :=
  match goal with
  | |- context [update_analysis ?d ?n ?s ?t] =>
      destruct (update_analysis d n s t) as [?o|?e] eqn:E;
      [|vm_compute in E; discriminate E]
  end;
  match goal with
  | o : Outputs |- _ =>
      destruct (scatter_figure o) as [?text|?frame ?x ?y ?c ?h|?frame ?x ?c]
        eqn:F;
      [exfalso; vm_compute in E; injection E as <-; discriminate F
      | | exfalso; vm_compute in E; injection E as <-; discriminate F]
  end.

Lemma plotted_columns_exist_witness :
  match update_analysis (Some scenario) (Some ["x"%string])
                        (Some "x"%string) 1.5 with
  | Ok o =>
      o = no_analysis
      \/ exists frame x y,
           scatter_figure o
           = ScatterFig frame x y "anomaly_label" [x; y; "z_score"%string]
           /\ histogram_plots o
              = map (fun col => HistogramFig frame col "anomaly_label")
                    ["x"%string]
           /\ Forall (fun col => has_column frame col = true)
                     ([x; y; "anomaly_label"; "z_score"]%string
                      ++ ["x"%string])
           /\ Forall (fun col => has_column (anomalous_rows frame) col = true)
                     (table_columns o)
           /\ anomalous_data_store o
              = Some (to_json_split (anomalous_rows frame))
  | Raise _ => False
  end.
Proof.
  destruct (update_analysis (Some scenario) (Some ["x"%string])
                            (Some "x"%string) 1.5) as [o|e] eqn:E;
    [|vm_compute in E; discriminate E].
  apply (plotted_columns_exist scenario ["x"%string] "x" 1.5 o E).
  repeat constructor.
Defined.

Lemma data_columns_untouched_witness :
  match update_analysis (Some scenario) (Some ["x"%string])
                        (Some "x"%string) 1.5 with
  | Ok o =>
      match scatter_figure o with
      | ScatterFig frame _ _ _ _ =>
          df_index frame = df_index scenario
          /\ get_column frame "x" = get_column scenario "x"
      | _ => False
      end
  | Raise _ => False
  end.
Proof.
  analysed E F.
  destruct (data_columns_untouched scenario ["x"%string] "x" 1.5
              _ _ _ _ _ _ E F) as (H1 & H2 & _).
  split; [exact H1|]. apply H2; discriminate.
Defined.

Lemma second_axis_is_another_column_witness :
  match update_analysis (Some scenario) (Some ["x"%string])
                        (Some "x"%string) 1.5 with
  | Ok o =>
      match scatter_figure o with
      | ScatterFig frame x y _ _ =>
          x = "x"%string /\ y = "index"%string
          /\ get_column frame "index" = Some (index_series scenario)
      | _ => False
      end
  | Raise _ => False
  end.
Proof.
  analysed E F.
  destruct (second_axis_is_another_column scenario ["x"%string] "x" 1.5
              _ _ _ _ _ _ E F) as (H1 & _ & _ & H4); [discriminate|].
  split; [exact H1|]. apply H4. intros col [<-|[]]. reflexivity.
Defined.

Lemma reported_rows_exceed_threshold_witness :
  exists e store,
    engine (update_analysis (Some scenario) (Some ["x"%string])
                            (Some "x"%string) 1.5) = Ok e
    /\ anomalous_store e = Some store
    /\ (forall i : nat,
          In i (js_index store)
          <-> exists z, nth_error (to_floats (scores e)) i = Some z
                        /\ (1.5 <? abs z) = true)
    /\ anomaly_count e = str (List.length (js_index store)).
Proof.
  destruct (engine (update_analysis (Some scenario) (Some ["x"%string])
                                    (Some "x"%string) 1.5))
    as [e|x] eqn:E; [|vm_compute in E; discriminate E].
  destruct (anomalous_store e) as [store|] eqn:S;
    [|exfalso; vm_compute in E; injection E as <-; discriminate S].
  exists e, store.
  destruct (reported_rows_exceed_threshold scenario ["x"%string] "x" 1.5
              e store eq_refl E S) as (H1 & H2 & _).
  repeat split; try assumption; apply H1.
Defined.

Lemma higher_threshold_reports_fewer_witness :
  exists e1 e2 s1 s2,
    engine (update_analysis (Some centred) (Some ["x"%string])
                            (Some "x"%string) 1) = Ok e1
    /\ engine (update_analysis (Some centred) (Some ["x"%string])
                               (Some "x"%string) 1.5) = Ok e2
    /\ anomalous_store e1 = Some s1
    /\ anomalous_store e2 = Some s2
    /\ scores e1 = scores e2
    /\ incl (js_index s2) (js_index s1).
Proof.
  destruct (engine (update_analysis (Some centred) (Some ["x"%string])
                                    (Some "x"%string) 1))
    as [e1|x] eqn:E1; [|vm_compute in E1; discriminate E1].
  destruct (engine (update_analysis (Some centred) (Some ["x"%string])
                                    (Some "x"%string) 1.5))
    as [e2|x] eqn:E2; [|vm_compute in E2; discriminate E2].
  destruct (anomalous_store e1) as [s1|] eqn:S1;
    [|exfalso; vm_compute in E1; injection E1 as <-; discriminate S1].
  destruct (anomalous_store e2) as [s2|] eqn:S2;
    [|exfalso; vm_compute in E2; injection E2 as <-; discriminate S2].
  exists e1, e2, s1, s2.
  destruct (higher_threshold_reports_fewer centred ["x"%string] "x" 1 1.5
              e1 e2 s1 s2 eq_refl E1 E2 S1 S2) as (H1 & H2 & _).
  repeat split; assumption.
Defined.

(* ================================================================== *)
(** * File upload *)
(* ================================================================== *)

(** [split] returns one part more than there are commas. *)
Lemma split_comma_length (s : string) :
  List.length (split_comma s) = S (commas s).
Proof.
  induction s as [|c rest IH]; simpl; [reflexivity|].
  destruct (Ascii.eqb c ","); simpl; [now rewrite IH|].
  destruct (split_comma rest); simpl in *; [discriminate | exact IH].
Qed.

(** X1.  Line 363 unpacks [contents.split(',')] into two names, so a
    content with no comma, or with more than one, makes the callback raise
    [ValueError] before the file name is looked at or anything is decoded:
    no message is shown and no output is set. *)
Theorem upload_needs_one_comma
    (b64decode : string -> option string)
    (read_csv : string -> string + DataFrame)
    (contents : string) (filename : option string) :
  commas contents <> 1%nat ->
  handle_file_upload b64decode read_csv (Some contents) filename
  = inl (ValueError_unpack (S (commas contents))).
Proof.
  intros H. unfold handle_file_upload.
  pose proof (split_comma_length contents) as L.
  destruct (split_comma contents) as [|a [|b [|c l]]]; simpl in L;
    try (rewrite <- L; reflexivity).
  exfalso. apply H. lia.
Qed.

Lemma upload_needs_one_comma_witness :
  handle_file_upload plain parsed_scenario
                     (Some "data:text/csv,charset=utf-8;base64,eA=="%string)
                     (Some "rows.csv"%string)
  = inl (ValueError_unpack 3).
Proof.
  apply (upload_needs_one_comma plain parsed_scenario
           "data:text/csv,charset=utf-8;base64,eA=="
           (Some "rows.csv"%string)).
  intros H. vm_compute in H. discriminate H.
Defined.

Lemma digits_no_comma (d : Decimal.uint) :
  Forall (fun c => Ascii.eqb c "," = false)
         (list_ascii_of_string (NilZero.string_of_uint d)).
Proof.
  assert (G : forall d,
    Forall (fun c => Ascii.eqb c "," = false)
           (list_ascii_of_string (NilEmpty.string_of_uint d))).
  { induction d0; simpl; constructor; auto. }
  destruct d; simpl; try (constructor; [reflexivity | apply G]).
  repeat constructor.
Qed.

Lemma group_digits_filter (n : nat) : forall l,
  (List.length l <= n)%nat ->
  Forall (fun c => Ascii.eqb c "," = false) l ->
  filter (fun c => negb (Ascii.eqb c ",")) (group_digits l) = l.
Proof.
  induction n as [|n IH]; intros l Hn Hl.
  - destruct l; [reflexivity | simpl in Hn; lia].
  - destruct l as [|a [|b [|c [|d rest]]]];
      try (simpl; rewrite ?Forall_cons_iff in Hl;
           repeat match goal with
                  | H : _ /\ _ |- _ => destruct H
                  end;
           repeat match goal with
                  | H : Ascii.eqb _ _ = false |- _ => rewrite H; clear H
                  end; reflexivity).
    inversion Hl as [|? ? Ha Hl1]; subst.
    inversion Hl1 as [|? ? Hb Hl2]; subst.
    inversion Hl2 as [|? ? Hc Hl3]; subst.
    change (group_digits (a :: b :: c :: d :: rest))
      with (a :: b :: c :: ","%char :: group_digits (d :: rest)).
    cbn [filter]. rewrite Ha, Hb, Hc. cbn [negb Ascii.eqb Bool.eqb].
    do 3 f_equal.
    apply IH; [simpl in *; lia | assumption].
Qed.

(** [f"{n:,}"] only adds commas to [str(n)]. *)
Lemma format_thousands_digits (n : nat) :
  without_commas (format_thousands n) = str n.
Proof.
  unfold without_commas, format_thousands.
  rewrite list_ascii_of_string_of_list_ascii.
  rewrite filter_rev.
  rewrite (group_digits_filter _ _ (le_n _)).
  - rewrite rev_involutive. apply string_of_list_ascii_of_string.
  - apply Forall_rev. apply digits_no_comma.
Qed.

Lemma to_records_length (df : DataFrame) :
  List.length (to_records df) = List.length (df_index df).
Proof. unfold to_records. now rewrite length_map, length_seq. Qed.

Lemma cells_length (s : Series) : List.length (cells s) = series_length s.
Proof. destruct s; simpl; apply length_map. Qed.

Lemma cells_number (s : Series) (i : nat) (c : Cell) :
  nth_error (cells s) i = Some c -> number_cell c = is_number (dtype_of s).
Proof.
  destruct s; simpl; intros H;
    apply nth_error_In in H; apply in_map_iff in H;
    destruct H as [x [<- _]]; reflexivity.
Qed.

Lemma field_row_at (cols : list (string * Series)) (i : nat) (name : string) :
  Forall (fun c => (i < series_length (snd c))%nat) cols ->
  field (row_at cols i) name
  = match lookup cols name with
    | Some s => nth_error (cells s) i
    | None => None
    end.
Proof.
  induction 1 as [|[k s] cols Hs _ IH]; simpl; [reflexivity|].
  simpl in Hs. rewrite <- cells_length in Hs.
  destruct (nth_error (cells s) i) as [c|] eqn:E.
  - simpl. destruct (String.eqb k name); [symmetry; exact E | exact IH].
  - apply nth_error_None in E. lia.
Qed.

Lemma lookup_unique (cols : list (string * Series)) (name : string)
    (s : Series) :
  NoDup (map fst cols) -> In (name, s) cols -> lookup cols name = Some s.
Proof.
  induction cols as [|[k s'] cols IH]; simpl; intros ND HI; [contradiction|].
  inversion ND as [|? ? Hk ND']; subst.
  destruct HI as [E|HI].
  - inversion E; subst. now rewrite String.eqb_refl.
  - destruct (String.eqb_spec k name) as [->|_].
    + exfalso. apply Hk. apply in_map_iff. now exists (name, s).
    + auto.
Qed.

(** X2.  The six outputs of an upload agree with each other.  When no
    data is stored, the dropdown is empty, no numeric columns are stored
    and both counters read 0.  When data is stored, the dropdown offers
    exactly the stored numeric columns, the feature counter is their
    number, the row counter is the number of stored records written with
    thousands separators, and every offered column is a field of every
    stored record and holds a number there.  (For a parser that, like
    [pd.read_csv], returns frames whose columns have one entry per row
    and distinct names.) *)
Theorem upload_outputs_agree
    (b64decode : string -> option string)
    (read_csv : string -> string + DataFrame)
    (contents filename : option string) (out : Upload) :
  (forall text df, read_csv text = inr df ->
     well_formed df /\ NoDup (map fst (df_columns df))) ->
  handle_file_upload b64decode read_csv contents filename = inr out ->
  match stored_data out with
  | None => out = nothing_loaded (output_data_upload out)
  | Some records =>
      numeric_cols_store out = Some (feature_options out)
      /\ numeric_features_kpi out = str (List.length (feature_options out))
      /\ without_commas (total_rows_kpi out) = str (List.length records)
      /\ forall record name,
           In record records -> In name (feature_options out) ->
           exists cell,
             field record name = Some cell /\ number_cell cell = true
  end.
Proof.
  intros Hcsv. unfold handle_file_upload.
  destruct contents as [contents|];
    [|intros H; inversion H; subst; reflexivity].
  destruct (split_comma contents) as [|a [|payload [|c l]]]; try discriminate.
  destruct (b64decode payload) as [decoded|]; [|discriminate].
  destruct filename as [filename|];
    [|intros H; inversion H; subst; reflexivity].
  destruct (contains "csv" (lower filename));
    [|intros H; inversion H; subst; reflexivity].
  destruct (read_csv decoded) as [e|df] eqn:E;
    [intros H; inversion H; subst; reflexivity|].
  destruct (Hcsv _ _ E) as [WF ND].
  intros H; inversion H; subst; clear H; simpl.
  rewrite format_thousands_digits, to_records_length.
  repeat split.
  intros record name Hr Hn.
  unfold to_records in Hr. apply in_map_iff in Hr.
  destruct Hr as [i [<- Hi]]. apply in_seq in Hi.
  unfold select_dtypes_number in Hn. apply in_map_iff in Hn.
  destruct Hn as [[k s] [Hk Hf]]. simpl in Hk. subst k.
  apply filter_In in Hf. destruct Hf as [Hin Hnum]. simpl in Hnum.
  rewrite field_row_at.
  - rewrite (lookup_unique _ _ _ ND Hin).
    destruct (nth_error (cells s) i) as [c|] eqn:Ec.
    + exists c. split; [reflexivity|].
      now rewrite (cells_number _ _ _ Ec).
    + apply nth_error_None in Ec. rewrite cells_length in Ec.
      unfold well_formed in WF. rewrite Forall_forall in WF.
      specialize (WF _ Hin). simpl in WF. lia.
  - unfold well_formed in WF. eapply Forall_impl; [|exact WF].
    intros c Hc. simpl in Hc. rewrite Hc. lia.
Qed.

Lemma upload_outputs_agree_witness :
  handle_file_upload plain parsed_scenario
                     (Some "data:text/csv;base64,eA=="%string)
                     (Some "rows.csv"%string)
  = inr uploaded_scenario
  /\ numeric_cols_store uploaded_scenario
     = Some (feature_options uploaded_scenario)
  /\ numeric_features_kpi uploaded_scenario
     = str (List.length (feature_options uploaded_scenario))
  /\ without_commas (total_rows_kpi uploaded_scenario)
     = str (List.length (to_records scenario)).
Proof.
  assert (E : handle_file_upload plain parsed_scenario
                (Some "data:text/csv;base64,eA=="%string)
                (Some "rows.csv"%string)
              = inr uploaded_scenario) by reflexivity.
  split; [exact E|].
  assert (Hcsv : forall text df, parsed_scenario text = inr df ->
                 well_formed df /\ NoDup (map fst (df_columns df))).
  { intros text df [= <-]. split; repeat constructor. intros []. }
  pose proof (upload_outputs_agree plain parsed_scenario _ _ _ Hcsv E) as H.
  cbv beta iota delta [stored_data uploaded_scenario] in H.
  destruct H as (H1 & H2 & H3 & _). repeat split; assumption.
Defined.

(* ================================================================== *)
(** * Accounts *)
(* ================================================================== *)

Lemma dict_get_set_same {V : Type} (d : dict V) (k : string) (v : V) :
  dict_get (dict_set d k v) k = Some v.
Proof.
  induction d as [|[k' v'] d IH]; simpl.
  - now rewrite String.eqb_refl.
  - destruct (String.eqb k' k) eqn:E; simpl; rewrite E; auto.
Qed.

Lemma dict_get_set_other {V : Type} (d : dict V) (k k' : string) (v : V) :
  k <> k' -> dict_get (dict_set d k v) k' = dict_get d k'.
Proof.
  intros Hne. induction d as [|[k0 v0] d IH]; simpl.
  - apply String.eqb_neq in Hne. now rewrite Hne.
  - destruct (String.eqb k0 k) eqn:E; simpl.
    + apply String.eqb_eq in E. subst k0.
      apply String.eqb_neq in Hne. now rewrite Hne.
    + now rewrite IH.
Qed.

(** A registration leaves the entry of every name that is in the table,
    and of every name other than the one it registers. *)
Lemma register_keeps (db : dict Account) (n : option nat)
    (username email password : option string) (name : string) :
  dict_in db name = true \/ username <> Some name ->
  dict_get (snd (register_user db n username email password)) name
  = dict_get db name.
Proof.
  intros H. unfold register_user.
  destruct (blank username || blank email || blank password); [reflexivity|].
  destruct username as [u|], email as [e|], password as [p|]; try reflexivity.
  destruct (dict_in db u) eqn:Hin; [reflexivity|]. cbn [snd].
  apply dict_get_set_other. intros ->.
  destruct H as [H|H]; congruence.
Qed.

(** X13.  An account of the table stays as it is through every run of
    registrations: [register_user] never replaces the password or the
    e-mail of a name that is taken, and never removes a name. *)
Theorem accounts_are_permanent (db : dict Account)
    (attempts : list (option string * option string * option string))
    (name : string) (account : Account) :
  dict_get db name = Some account ->
  dict_get (register_all db attempts) name = Some account.
Proof.
  revert db.
  induction attempts as [|[[u e] p] rest IH]; intros db Hget; simpl; auto.
  apply IH. rewrite register_keeps; auto.
  left. unfold dict_in. now rewrite Hget.
Qed.

Lemma accounts_are_permanent_witness :
  dict_get
    (register_all USERS_DB
       [(Some "admin", Some "me@example.org", Some "mine");
        (Some "guest", Some "guest@example.org", Some "guest1")]%string)
    "admin"
  = Some (mkAccount "admin123" "admin@gmail.com").
Proof.
  apply accounts_are_permanent. reflexivity.
Defined.

Lemma login_success_iff (db : dict Account) (n : option nat)
    (username password : option string) :
  fst (login_user db n username password) = login_state_of true
  <-> valid_credentials db username password.
Proof.
  unfold login_user, valid_credentials.
  destruct username as [u|], password as [p|]; cbn [blank orb].
  2-4: (split; [try destruct (String.eqb u ""); discriminate
               | intros (?&?&?&?&?&_); congruence]).
  destruct (String.eqb_spec u "") as [->|Hu]; cbn [orb].
  { split; [discriminate | intros (?&?&?&[= <-]&_&?&_); congruence]. }
  destruct (String.eqb_spec p "") as [->|Hp]; cbn [orb].
  { split; [discriminate | intros (?&?&?&_&[= <-]&_&?&_); congruence]. }
  unfold dict_in. destruct (dict_get db u) as [a|] eqn:Hget; cbn [andb].
  - destruct (String.eqb_spec (acct_password a) p) as [Hpw|Hpw]; cbn [fst].
    + split; [intros _; exists u, p, a; repeat split; auto | reflexivity].
    + split; [discriminate|].
      intros (?&?&?&[= <-]&[= <-]&_&_&Hg&Hq). congruence.
  - split; [discriminate|].
    intros (?&?&?&[= <-]&_&_&_&Hg&_). congruence.
Qed.

Lemma login_state_cases (db : dict Account) (n : option nat)
    (username password : option string) :
  fst (login_user db n username password) = login_state_of true
  \/ fst (login_user db n username password) = login_state_of false.
Proof.
  unfold login_user.
  destruct (blank username || blank password); [now right|].
  destruct username, password; try (now right).
  destruct (_ && _); [now left | now right].
Qed.

(** X12.  Registering a new name with all three fields filled in is
    accepted, after which a login with that name and password succeeds
    and a login with that name and any other password is turned away. *)
Theorem register_then_login (db : dict Account) (n n' : option nat)
    (username email password : string) :
  username <> ""%string -> email <> ""%string -> password <> ""%string ->
  dict_in db username = false ->
  let '(message, db') :=
    register_user db n (Some username) (Some email) (Some password) in
  message = "✅ Registered! Go back and login."%string
  /\ login_user db' n' (Some username) (Some password)
     = (login_state_of true, "✅ Login successful!"%string)
  /\ forall other : string,
       other <> password ->
       login_user db' n' (Some username) (Some other)
       = (login_state_of false,
          if String.eqb other "" then " Enter username & password"%string
          else "❌ Invalid credentials"%string).
Proof.
  intros Hu He Hp Hnew. unfold register_user. cbn [blank].
  apply String.eqb_neq in Hu, He, Hp. rewrite Hu, He, Hp, Hnew. cbn [orb].
  split; [reflexivity|]. unfold login_user, dict_in. cbn [blank].
  rewrite Hu, dict_get_set_same. cbn [acct_password orb andb]. split.
  - now rewrite Hp, String.eqb_refl.
  - intros other Hne. destruct (String.eqb other ""); [reflexivity|].
    apply not_eq_sym in Hne. apply String.eqb_neq in Hne. now rewrite Hne.
Qed.

Lemma register_then_login_witness :
  let '(message, db') :=
    register_user USERS_DB None (Some "guest"%string)
                  (Some "guest@example.org"%string) (Some "guest1"%string) in
  message = "✅ Registered! Go back and login."%string
  /\ login_user db' (Some 1%nat) (Some "guest"%string) (Some "guest1"%string)
     = (login_state_of true, "✅ Login successful!"%string)
  /\ forall other : string,
       other <> "guest1"%string ->
       login_user db' (Some 1%nat) (Some "guest"%string) (Some other)
       = (login_state_of false,
          if String.eqb other "" then " Enter username & password"%string
          else "❌ Invalid credentials"%string).
Proof.
  apply (register_then_login USERS_DB None (Some 1%nat)
           "guest" "guest@example.org" "guest1");
    [discriminate | discriminate | discriminate | reflexivity].
Defined.

(* ================================================================== *)
(** * Page routing *)
(* ================================================================== *)

Lemma protected_iff (pathname : option string)
    (login_state : option (dict bool)) :
  protected (display_page pathname login_state) = true
  <-> (not_logged_in login_state = false
       /\ pathname <> Some "/logout"%string
       /\ pathname <> Some "/register"%string).
Proof.
  unfold display_page.
  destruct pathname as [p|].
  - destruct (String.eqb_spec p "/logout") as [->|H1]; cbn.
    { split; [discriminate | intros (_&H&_); congruence]. }
    destruct (String.eqb_spec p "/register") as [->|H2]; cbn.
    { split; [discriminate | intros (_&_&H); congruence]. }
    destruct (not_logged_in login_state); cbn.
    { split; [discriminate | intros (H&_); congruence]. }
    destruct (String.eqb p "/insights"); [|destruct (String.eqb p "/settings")];
      cbn; (split; [intros _; repeat split; congruence | reflexivity]).
  - destruct (not_logged_in login_state); cbn.
    { split; [discriminate | intros (H&_); congruence]. }
    split; [intros _; repeat split; congruence | reflexivity].
Qed.

(** X10.  [display_page] shows a page behind the login (dashboard,
    insights, settings) exactly when the login state says logged in and
    the path is neither [/logout] nor [/register]; with an empty store, an
    empty dictionary or a false [logged_in], every path other than
    [/register] shows the login page. *)
Theorem protected_pages_need_login (pathname : option string)
    (login_state : option (dict bool)) :
  (protected (display_page pathname login_state) = true
   <-> (not_logged_in login_state = false
        /\ pathname <> Some "/logout"%string
        /\ pathname <> Some "/register"%string))
  /\ (not_logged_in login_state = true ->
      pathname <> Some "/register"%string ->
      display_page pathname login_state = login_layout).
Proof.
  split; [apply protected_iff|].
  intros Hout Hreg. unfold display_page.
  destruct pathname as [p|]; [|now rewrite Hout].
  destruct (String.eqb_spec p "/logout"); [reflexivity|].
  destruct (String.eqb_spec p "/register"); [subst; congruence|].
  now rewrite Hout.
Qed.

Lemma logged_in_state (db : dict Account) (n : option nat)
    (username password : option string) :
  not_logged_in (Some (fst (login_user db n username password))) = false
  <-> valid_credentials db username password.
Proof.
  rewrite <- (login_success_iff db n).
  destruct (login_state_cases db n username password) as [-> | ->];
    vm_compute; split; intros H; try reflexivity; discriminate H.
Qed.

(** X11.  The state [login_user] stores opens the pages behind the login
    exactly for valid credentials: both fields filled in, the name in the
    table, and the password the one stored for it. *)
Theorem login_opens_the_pages (db : dict Account) (n : option nat)
    (username password pathname : option string) :
  protected (display_page pathname
               (Some (fst (login_user db n username password)))) = true
  <-> (valid_credentials db username password
       /\ pathname <> Some "/logout"%string
       /\ pathname <> Some "/register"%string).
Proof.
  rewrite protected_iff, logged_in_state. tauto.
Qed.

(* ================================================================== *)
(** * Attack cards *)
(* ================================================================== *)

Lemma list_max_In (l : list nat) : l <> [] -> In (list_max l) l.
Proof.
  induction l as [|a l IH]; [congruence|]. intros _.
  change (list_max (a :: l)) with (Nat.max a (list_max l)).
  destruct l as [|b l'].
  - left. simpl. lia.
  - destruct (Nat.max_spec a (list_max (b :: l'))) as [[_ ->]|[_ ->]].
    + right. apply IH. discriminate.
    + now left.
Qed.

Lemma list_max_ge (l : list nat) (x : nat) : In x l -> (x <= list_max l)%nat.
Proof.
  intros Hin. pose proof (proj1 (list_max_le l (list_max l)) (le_n _)) as H.
  rewrite Forall_forall in H. now apply H.
Qed.

Lemma index_first (x : nat) (l : list nat) :
  In x l ->
  (index x l < List.length l)%nat
  /\ nth (index x l) l 0%nat = x
  /\ forall j, (j < index x l)%nat -> nth j l 0%nat <> x.
Proof.
  induction l as [|y l IH]; [intros []|]. intros Hin. simpl.
  destruct (Nat.eqb_spec y x) as [->|Hne].
  - repeat split; [lia | lia].
  - destruct Hin as [->|Hin]; [congruence|].
    destruct (IH Hin) as (H1 & H2 & H3). repeat split; [lia | exact H2 |].
    intros [|j] Hj; [exact Hne|]. apply H3. lia.
Qed.

(** Lines 600-602 select nothing when no card has been clicked, and
    otherwise the first card among those clicked most often. *)
Lemma selected_index_first_maximum (clicks : list nat) :
  (selected_index clicks = (-1)%Z <-> forall c, In c clicks -> c = 0%nat)
  /\ (forall i : nat,
        selected_index clicks = Z.of_nat i ->
        (i < List.length clicks)%nat
        /\ (0 < nth i clicks 0)%nat
        /\ (forall c, In c clicks -> (c <= nth i clicks 0)%nat)
        /\ (forall j, (j < i)%nat -> (nth j clicks 0 < nth i clicks 0)%nat)).
Proof.
  unfold selected_index.
  destruct (Nat.ltb_spec 0 (list_max clicks)) as [Hpos|Hzero].
  - assert (Hne : clicks <> []) by (intros ->; simpl in Hpos; lia).
    pose proof (index_first _ _ (list_max_In clicks Hne)) as (H1 & H2 & H3).
    split.
    + split; [lia|]. intros Hall.
      specialize (Hall _ (list_max_In clicks Hne)). lia.
    + intros i Hi. apply Nat2Z.inj in Hi. subst i. rewrite H2.
      repeat split; auto using list_max_ge.
      intros j Hj. specialize (H3 j Hj).
      assert (nth j clicks 0 <= list_max clicks)%nat; [|lia].
      apply list_max_ge, nth_In. lia.
  - split.
    + split; [|reflexivity]. intros _ c Hc.
      pose proof (list_max_ge clicks c Hc). lia.
    + intros i Hi. lia.
Qed.

Lemma build_cards_sel (i : nat) :
  map is_sel (_build_attack_cards (Z.of_nat i))
  = map (Nat.eqb i) (seq 0 6).
Proof.
  do 6 (destruct i as [|i]; [reflexivity|]).
  unfold _build_attack_cards. cbn [enumerate cards_meta map seq is_sel Z.add].
  cbn [Nat.eqb].
  repeat f_equal; apply Z.eqb_neq; lia.
Qed.

Lemma build_cards_ids (idx : Z) :
  map (fun c => (card_id c, card_name c)) (_build_attack_cards idx)
  = cards_meta.
Proof. reflexivity. Qed.

(** X15.  [update_attack_selection] always rebuilds the same six cards in
    the same order; none is drawn selected while no card has a click, and
    otherwise exactly one is: a card with the largest number of clicks,
    and among equals the first of the grid. *)
Theorem one_card_selected
    (ddos dos portscan bruteforce botnet webattacks : option nat) :
  let clicks :=
    map or_zero [ddos; dos; portscan; bruteforce; botnet; webattacks] in
  let cards :=
    update_attack_selection ddos dos portscan bruteforce botnet webattacks in
  map (fun c => (card_id c, card_name c)) cards = cards_meta
  /\ ((forall c, In c clicks -> c = 0%nat) ->
      map is_sel cards = repeat false 6)
  /\ ((exists c, In c clicks /\ (0 < c)%nat) ->
      exists i : nat,
        (i < 6)%nat
        /\ map is_sel cards = map (Nat.eqb i) (seq 0 6)
        /\ (forall c, In c clicks -> (c <= nth i clicks 0)%nat)
        /\ (forall j, (j < i)%nat -> (nth j clicks 0 < nth i clicks 0)%nat)).
Proof.
  intros clicks cards. split; [apply build_cards_ids|].
  unfold cards, update_attack_selection.
  fold (map or_zero [ddos; dos; portscan; bruteforce; botnet; webattacks]).
  fold clicks.
  destruct (selected_index_first_maximum clicks) as [Hnone Hsome].
  split.
  - intros Hall. now rewrite (proj2 Hnone Hall).
  - intros (c & Hc & Hpos).
    assert (Hsel : exists i, selected_index clicks = Z.of_nat i).
    { unfold selected_index.
      destruct (Nat.ltb_spec 0 (list_max clicks)); [eauto|].
      pose proof (list_max_ge clicks c Hc). lia. }
    destruct Hsel as [i Hi]. destruct (Hsome i Hi) as (H1 & H2 & H3 & H4).
    exists i. rewrite Hi, build_cards_sel. repeat split; auto.
Qed.

(* ================================================================== *)
(** * The smart report *)
(* ================================================================== *)

(** [max] with a key returns the first of the rows of largest count. *)
Lemma max_by_count_first (best : ReportRow) (rows : list ReportRow) :
  exists l1 l2,
    best :: rows = l1 ++ max_by_count best rows :: l2
    /\ Forall (fun r => (count r < count (max_by_count best rows))%Z) l1
    /\ Forall (fun r => (count r <= count (max_by_count best rows))%Z) l2.
Proof.
  revert best. induction rows as [|r rest IH]; intros best; simpl.
  - exists [], []. repeat split; constructor.
  - destruct (Z.ltb_spec (count best) (count r)) as [Hlt|Hge].
    + destruct (IH r) as (l1 & l2 & Heq & H1 & H2).
      remember (max_by_count r rest) as h eqn:Hh. clear Hh.
      assert (Hr : (count r <= count h)%Z).
      { destruct l1 as [|a l1]; simpl in Heq.
        - injection Heq as Heq _. rewrite <- Heq. lia.
        - injection Heq as <- _. inversion H1; subst. lia. }
      exists (best :: l1), l2. rewrite Heq. repeat split; auto.
      constructor; [lia|exact H1].
    + destruct (IH best) as (l1 & l2 & Heq & H1 & H2).
      remember (max_by_count best rest) as h eqn:Hh. clear Hh.
      destruct l1 as [|a l1]; simpl in Heq.
      * injection Heq as Hb Hrest. subst h l2. exists [], (r :: rest).
        repeat split; [constructor|].
        constructor; [lia | exact H2].
      * injection Heq as <- Hrest. exists (best :: r :: l1), l2.
        simpl. rewrite Hrest. repeat split; auto.
        inversion H1; subst. repeat constructor; auto; lia.
Qed.

Lemma report_rows_positive attack_counts total :
  Forall (fun r => (0 < count r)%Z
                   /\ risk_level r = classify_risk (count r) total)
         (report_rows attack_counts total).
Proof.
  induction attack_counts as [|[attack n] rest IH]; simpl; [constructor|].
  destruct (Z.ltb_spec 0 n); [constructor; auto|exact IH].
Qed.

Lemma report_rows_no_anomalies attack_counts :
  Forall (fun r => probability r = 0%float /\ risk_level r = "Low"%string)
         (report_rows attack_counts 0).
Proof.
  induction attack_counts as [|[attack n] rest IH]; simpl; [constructor|].
  destruct (0 <? n)%Z; [|exact IH]. constructor; [|exact IH].
  split; reflexivity.
Qed.

Section ReportData.

Variable rng : Type.
Variable seed : Z -> rng.
Variable poisson : float -> rng -> Z * rng.

(** The data of the report for a stored table of anomalous rows. *)
#[local] Abbreviation report js c1 c2 g :=
  (fst (generate_smart_report rng seed poisson (Some js) c1 c2 g)).

Lemma report_shape (js : SplitJson) (c1 c2 : string) (g : rng) :
  let table := attack_summary_table (report js c1 c2 g) in
  match table with
  | [] =>
      report js c1 c2 g = mkReport None None "No Threats" 0 0 [] c2
  | first :: others =>
      report js c1 c2 g
      = mkReport (Some table) (Some (trend_rows c1 table))
                 (attack_type (max_by_count first others))
                 (count (max_by_count first others))
                 (probability (max_by_count first others))
                 table c2
  end.
Proof.
  unfold generate_smart_report.
  destruct (draw_counts rng poisson attack_types _ _ _) as [counts g'].
  cbn [fst]. destruct (report_rows counts _); reflexivity.
Qed.

(** X16.  The card of the highest attack shows a row of the summary
    table: one whose count no row exceeds, and the first such row of the
    table; its name, count and percentage are those of that row.  With an
    empty table the card reads No Threats and no report is stored. *)
Theorem highest_attack_is_first_maximum (js : SplitJson)
    (c1 c2 : string) (g : rng) :
  let r := report js c1 c2 g in
  (attack_summary_table r = [] ->
   smart_report_data r = None /\ highest_attack_name r = "No Threats"%string)
  /\ (attack_summary_table r <> [] ->
      exists before highest after,
        attack_summary_table r = before ++ highest :: after
        /\ highest_attack_name r = attack_type highest
        /\ highest_attack_count r = count highest
        /\ highest_attack_prob r = probability highest
        /\ Forall (fun row => (count row < count highest)%Z) before
        /\ Forall (fun row => (count row <= count highest)%Z) after).
Proof.
  intros r. pose proof (report_shape js c1 c2 g) as Hshape. cbv zeta in Hshape.
  fold r in Hshape.
  destruct (attack_summary_table r) as [|first others] eqn:Htab.
  - split; [|congruence]. intros _. now rewrite Hshape.
  - split; [discriminate|]. intros _.
    destruct (max_by_count_first first others) as (l1 & l2 & Heq & H1 & H2).
    exists l1, (max_by_count first others), l2.
    rewrite Hshape. cbn. repeat split; auto.
Qed.

(** X17.  Every row of the summary table has a positive count and the
    risk level [classify_risk] gives its count against the number of
    anomalous rows; when the table has rows, the stored report is the
    table and the stored trend lists the same attacks with the same
    counts under the one time stamp of the call; the report's time stamp
    is the clock reading. *)
Theorem report_agrees_with_its_table (js : SplitJson)
    (c1 c2 : string) (g : rng) :
  let r := report js c1 c2 g in
  let total := Z.of_nat (List.length (js_index js)) in
  Forall (fun row => (0 < count row)%Z
                     /\ risk_level row = classify_risk (count row) total)
         (attack_summary_table r)
  /\ (attack_summary_table r <> [] ->
      smart_report_data r = Some (attack_summary_table r)
      /\ attack_trend_data r
         = Some (map (fun row => mkTrendRow c1 (attack_type row) (count row))
                     (attack_summary_table r)))
  /\ report_timestamp r = c2.
Proof.
  intros r total. split; [|split].
  - unfold r. rewrite summary_table_rows.
    replace (Z.max (Z.of_nat (List.length (js_index js))) 0) with total
      by (unfold total; lia).
    apply report_rows_positive.
  - pose proof (report_shape js c1 c2 g) as Hshape. cbv zeta in Hshape.
    fold r in Hshape.
    destruct (attack_summary_table r); [congruence|].
    intros _. now rewrite Hshape.
  - pose proof (report_shape js c1 c2 g) as Hshape. cbv zeta in Hshape.
    fold r in Hshape.
    destruct (attack_summary_table r); now rewrite Hshape.
Qed.

(** X18.  The report reads nothing of the anomalous rows but their
    number: two stored tables with the same number of rows give the same
    report, whatever their columns and values, and whatever state the
    generator was in. *)
Theorem report_reads_only_the_row_count (js js' : SplitJson)
    (c1 c2 : string) (g g' : rng) :
  List.length (js_index js) = List.length (js_index js') ->
  report js c1 c2 g = report js' c1 c2 g'.
Proof.
  intros H. unfold generate_smart_report. now rewrite H.
Qed.

(** X19.  For a stored table without rows the report may still list
    attacks (the counts are drawn, not counted); each row it lists then
    has probability 0 and risk level Low. *)
Theorem report_without_anomalies (js : SplitJson)
    (c1 c2 : string) (g : rng) :
  js_index js = [] ->
  Forall (fun row => probability row = 0%float
                     /\ risk_level row = "Low"%string)
         (attack_summary_table (report js c1 c2 g)).
Proof.
  intros H. rewrite summary_table_rows, H. cbn [List.length Z.of_nat Z.max].
  apply report_rows_no_anomalies.
Qed.

End ReportData.

Lemma report_reads_only_the_row_count_witness :
  fst (generate_smart_report (list Z) (replay_seed [2; 1; 0; 3]%Z)
         replay_poisson (Some one_row) "2025-01-01T00:00:00"
         "January 01, 2025" [])
  = fst (generate_smart_report (list Z) (replay_seed [2; 1; 0; 3]%Z)
           replay_poisson (Some another_row) "2025-01-01T00:00:00"
           "January 01, 2025" [7%Z]).
Proof.
  apply report_reads_only_the_row_count. reflexivity.
Defined.

Lemma report_without_anomalies_witness :
  Forall (fun row => probability row = 0%float
                     /\ risk_level row = "Low"%string)
         (attack_summary_table
            (fst (generate_smart_report (list Z) (replay_seed [1; 0; 0; 2]%Z)
                    replay_poisson (Some no_rows) "2025-01-01T00:00:00"
                    "January 01, 2025" []))).
Proof.
  apply report_without_anomalies. reflexivity.
Defined.

(** Such a report does list attacks: here DDoS and Port Scan. *)
Example threats_without_anomalies :
  map attack_type
      (attack_summary_table
         (fst (generate_smart_report (list Z) (replay_seed [1; 0; 0; 2]%Z)
                 replay_poisson (Some no_rows) "2025-01-01T00:00:00"
                 "January 01, 2025" [])))
  = ["DDoS"; "Port Scan"]%string.
Proof. vm_compute. reflexivity. Qed.
